(** * Patch transformers of kustomize: a shallow embedding

    The development follows the two builtin plugins

      - [plugin/builtin/patchtransformer/PatchTransformer.go]
      - [plugin/builtin/patchstrategicmergetransformer/PatchStrategicMergeTransformer.go]

    Go strings and byte slices are [string]s (lists of bytes).  A Go
    function returning [(T, error)] returns a pair of options, [None]
    standing for [nil]; a method that mutates its receiver returns the new
    receiver next to the error.  A [*resource.Resource] obtained from a
    [resmap.ResMap] is the position of that resource in the collection, and
    mutating through the pointer rewrites that position. *)

From Stdlib Require Import String Ascii List Bool Arith NArith ZArith Lia.
Import ListNotations.
Open Scope string_scope.
Open Scope list_scope.

(* ================================================================= *)
(** * Part I: definitions *)
(* ================================================================= *)

(** ** Go strings *)

Module strings.

(** [strings.Contains(s, substr)]: [substr] occurs somewhere in [s]. *)
Fixpoint Contains (s substr : string) : bool :=
  if String.prefix substr s then true
  else match s with
       | EmptyString => false
       | String _ s' => Contains s' substr
       end.

Definition byte (c : ascii) : N := N_of_ascii c.

Definition asciiSpace (b : N) : bool :=
  ((9 <=? b) && (b <=? 13) || (b =? 32))%N.

(** Number of bytes of the white-space rune (as [unicode.IsSpace] has it)
    whose UTF-8 encoding starts the byte list, 0 when there is none.  *)
Definition spaceRuneLen (l : list N) : nat :=
  match l with
  | b :: rest =>
      if asciiSpace b then 1
      else match b, rest with
           | 194%N, c :: _ =>                    (* U+0085, U+00A0 *)
               if ((c =? 133) || (c =? 160))%N then 2 else 0
           | 225%N, 154%N :: 128%N :: _ => 3     (* U+1680 *)
           | 226%N, 128%N :: c :: _ =>           (* U+2000..U+200A, U+2028, U+2029, U+202F *)
               if ((128 <=? c) && (c <=? 138) || (c =? 168) || (c =? 169) || (c =? 175))%N
               then 3 else 0
           | 226%N, 129%N :: 159%N :: _ => 3     (* U+205F *)
           | 227%N, 128%N :: 128%N :: _ => 3     (* U+3000 *)
           | _, _ => 0
           end
  | [] => 0
  end.

(** The same, read from the last byte backwards: the argument is the
    reversed byte list. *)
Definition spaceRuneLenRev (l : list N) : nat :=
  match l with
  | b :: rest =>
      if asciiSpace b then 1
      else match rest with
           | 194%N :: _ =>
               if ((b =? 133) || (b =? 160))%N then 2 else 0
           | 154%N :: 225%N :: _ => if (b =? 128)%N then 3 else 0
           | 128%N :: 226%N :: _ =>
               if ((128 <=? b) && (b <=? 138) || (b =? 168) || (b =? 169) || (b =? 175))%N
               then 3 else 0
           | 129%N :: 226%N :: _ => if (b =? 159)%N then 3 else 0
           | 128%N :: 227%N :: _ => if (b =? 128)%N then 3 else 0
           | _ => 0
           end
  | [] => 0
  end.

Fixpoint trimWith (runeLen : list N -> nat) (fuel : nat) (l : list N) : list N :=
  match fuel with
  | 0 => l
  | S fuel' =>
      match runeLen l with
      | 0 => l
      | n => trimWith runeLen fuel' (skipn n l)
      end
  end.

Definition bytesOf (s : string) : list N := map byte (list_ascii_of_string s).
Definition ofBytes (l : list N) : string :=
  string_of_list_ascii (map ascii_of_N l).

(** [strings.TrimSpace(s)]: [s] without leading and trailing white space. *)
Definition TrimSpace (s : string) : string :=
  let l := bytesOf s in
  let l := trimWith spaceRuneLen (List.length l) l in
  let r := trimWith spaceRuneLenRev (List.length l) (rev l) in
  ofBytes (rev r).

End strings.

(** ** Errors *)

(** The error kinds of the engine's contract. *)
Inductive ErrorKind : Type :=
| ConfigError
| ParseError
| NotFoundError
| ApplyError
| OtherError.

(** One constructor for each error the two plugins build themselves; an
    error handed up from a collaborator is [ErrFrom], with the kind and
    the message the collaborator gave it. *)
Inductive Error : Type :=
| ErrMustSpecifyPatchOrPath (c : string)
    (* "must specify one of patch and path in\n%s" *)
| ErrPatchAndPath (c : string)
    (* "patch and path can't be set at the same time\n%s" *)
| ErrBothSMAndJSON (patch : string)
    (* "illegally qualifies as both an SM and JSON patch: [%v]" *)
| ErrUnableToParse (patch : string)
    (* "unable to parse SM or JSON patch from [%v]" *)
| ErrMustSpecifyTarget (patch : string)
    (* "must specify a target for patch %s" *)
| ErrEmptyJsonPatchOps
    (* "empty json patch operations" *)
| ErrFailedToApplyJsonPatch (cause : Error) (patch : string)
    (* errors.Wrapf(err, "failed to apply json patch '%s'", p.Patch) *)
| ErrEmptyPathAndPatch
    (* "empty file path and empty patch content" *)
| ErrPatchAppearsEmpty (patches : string)
    (* "patch appears to be empty; files=%v, Patch=%s" *)
| ErrNilDereference
    (* the run-time panic of a nil pointer dereference *)
| ErrFrom (k : ErrorKind) (msg : string).

(** Modelled from the spec: the error taxonomy of section 7, which the
    source does not declare (its errors are plain [fmt.Errorf] values). *)
Definition kindOf (e : Error) : ErrorKind :=
  match e with
  | ErrMustSpecifyPatchOrPath _ => ConfigError
  | ErrPatchAndPath _ => ConfigError
  | ErrBothSMAndJSON _ => ConfigError
  | ErrUnableToParse _ => ParseError
  | ErrMustSpecifyTarget _ => ConfigError
  | ErrEmptyJsonPatchOps => ParseError
  | ErrFailedToApplyJsonPatch _ _ => ApplyError
  | ErrEmptyPathAndPatch => ConfigError
  | ErrPatchAppearsEmpty _ => ConfigError
  | ErrNilDereference => OtherError
  | ErrFrom k _ => k
  end.

(** Result of a collaborator that either yields a value or fails. *)
Inductive Result (A : Type) : Type :=
| Ok (a : A)
| Err (e : Error).
Arguments Ok {A} a.
Arguments Err {A} e.

(** ** The generic field-tree *)

(** Modelled from the spec: the recursive value of section 3
    (null / bool / number / string / ordered list / ordered map). *)
Unset Elimination Schemes.
Inductive Value : Type :=
| VNull
| VBool (b : bool)
| VNum (n : Z)
| VStr (s : string)
| VList (l : list Value)
| VMap (m : list (string * Value)).
Set Elimination Schemes.

Definition Fields : Type := list (string * Value).

Fixpoint lookup (k : string) (m : Fields) : option Value :=
  match m with
  | [] => None
  | (k', v) :: m' => if String.eqb k k' then Some v else lookup k m'
  end.

Fixpoint remove (k : string) (m : Fields) : Fields :=
  match m with
  | [] => []
  | (k', v) :: m' =>
      if String.eqb k k' then remove k m' else (k', v) :: remove k m'
  end.

(** Replace the value of the first entry of key [k]. *)
Fixpoint update (k : string) (v : Value) (m : Fields) : Fields :=
  match m with
  | [] => []
  | (k', v') :: m' =>
      if String.eqb k k' then (k', v) :: m' else (k', v') :: update k v m'
  end.

(** Set key [k]: in place when present, at the end otherwise. *)
Definition upsert (k : string) (v : Value) (m : Fields) : Fields :=
  match lookup k m with
  | Some _ => update k v m
  | None => m ++ [(k, v)]
  end.

Fixpoint Value_eqb (a b : Value) {struct a} : bool :=
  match a, b with
  | VNull, VNull => true
  | VBool x, VBool y => Bool.eqb x y
  | VNum x, VNum y => Z.eqb x y
  | VStr x, VStr y => String.eqb x y
  | VList l, VList l' =>
      (fix go (l l' : list Value) {struct l} : bool :=
         match l, l' with
         | [], [] => true
         | x :: l, y :: l' => Value_eqb x y && go l l'
         | _, _ => false
         end) l l'
  | VMap m, VMap m' =>
      (fix go (m m' : Fields) {struct m} : bool :=
         match m, m' with
         | [], [] => true
         | (k, x) :: m, (k', y) :: m' =>
             String.eqb k k' && Value_eqb x y && go m m'
         | _, _ => false
         end) m m'
  | _, _ => false
  end.

(** ** Resources and resource collections *)

Record Gvk : Type := mkGvk {
  Group : string;
  Version : string;
  Kind : string
}.

Record ResId : Type := mkResId {
  idGvk : Gvk;
  idName : string;
  idNamespace : string
}.

Definition Gvk_eqb (a b : Gvk) : bool :=
  String.eqb (Group a) (Group b) && String.eqb (Version a) (Version b)
  && String.eqb (Kind a) (Kind b).

Definition ResId_eqb (a b : ResId) : bool :=
  Gvk_eqb (idGvk a) (idGvk b) && String.eqb (idName a) (idName b)
  && String.eqb (idNamespace a) (idNamespace b).

(** Modelled from the spec: [resource.Resource] is not among the sources.
    Section 3 has it identified by the key {group, version, kind,
    namespace, name}, holding a mutable field-tree, with deep copy and
    identity field mutation.  [rOrgId] is the identity it was loaded with. *)
Record Resource : Type := mkResource {
  rOrgId : ResId;
  rGvk : Gvk;
  rName : string;
  rNamespace : string;
  rMap : Fields
}.

Module resource.

Definition OrgId (r : Resource) : ResId := rOrgId r.
Definition CurId (r : Resource) : ResId :=
  mkResId (rGvk r) (rName r) (rNamespace r).
Definition GetName (r : Resource) : string := rName r.
Definition GetNamespace (r : Resource) : string := rNamespace r.
Definition GetGvk (r : Resource) : Gvk := rGvk r.
Definition Map (r : Resource) : Fields := rMap r.

Definition SetName (n : string) (r : Resource) : Resource :=
  mkResource (rOrgId r) (rGvk r) n (rNamespace r) (rMap r).
Definition SetNamespace (ns : string) (r : Resource) : Resource :=
  mkResource (rOrgId r) (rGvk r) (rName r) ns (rMap r).
Definition SetGvk (g : Gvk) (r : Resource) : Resource :=
  mkResource (rOrgId r) g (rName r) (rNamespace r) (rMap r).
Definition SetMap (m : Fields) (r : Resource) : Resource :=
  mkResource (rOrgId r) (rGvk r) (rName r) (rNamespace r) m.

(** Resources are values here, so a copy is the resource itself: what the
    copy shares with the original in Go is never written through. *)
Definition DeepCopy (r : Resource) : Resource := r.
Definition Copy (r : Resource) : Resource := r.

End resource.

(** [types.Selector]. *)
Record Selector : Type := mkSelector {
  selGvk : Gvk;
  selNamespace : string;
  selName : string;
  selAnnotationSelector : string;
  selLabelSelector : string
}.

(** Modelled from the spec: [resmap.ResMap] is not among the sources.
    Section 3 has it an ordered set of resources with identity lookup,
    selector-based multi-match and removal.  A pointer to one of its
    resources is the resource's position. *)
Definition ResMap : Type := list Resource.

Fixpoint replaceAt (i : nat) (r : Resource) (m : ResMap) : ResMap :=
  match m, i with
  | [], _ => []
  | _ :: m', 0 => r :: m'
  | x :: m', S i' => x :: replaceAt i' r m'
  end.

(** Positions, from [base] on, of the resources satisfying [f]. *)
Fixpoint positions (f : Resource -> bool) (base : nat) (m : ResMap) : list nat :=
  match m with
  | [] => []
  | r :: m' =>
      if f r then base :: positions f (S base) m'
      else positions f (S base) m'
  end.

Module resmap.

(** Modelled from the spec: exact lookup by the identity a patch was
    loaded with; no match is a NotFoundError, and the lookup must yield
    exactly one match (section 4.3). *)
Definition GetById (id : ResId) (m : ResMap) : Result nat :=
  match positions (fun r => ResId_eqb (resource.OrgId r) id) 0 m with
  | [i] => Ok i
  | [] => Err (ErrFrom NotFoundError "no matches for Id")
  | _ => Err (ErrFrom ConfigError "multiple matches for Id")
  end.

(** Modelled from the spec: removal by current identity; it fails unless
    the collection shrinks by exactly one. *)
Definition Remove (adios : ResId) (m : ResMap) : Result ResMap :=
  let tmp := filter (fun r => negb (ResId_eqb (resource.CurId r) adios)) m in
  if Nat.eqb (S (List.length tmp)) (List.length m) then Ok tmp
  else Err (ErrFrom NotFoundError "id not found in removal").

End resmap.

(** ** JSON-Patch operations *)

(** Modelled from the spec: [jsonpatch.Patch] is an ordered sequence of
    {op, path, value} operations of RFC 6902; a path pointer is its list
    of reference tokens. *)
Definition Pointer : Type := list string.

Inductive Operation : Type :=
| OpAdd (path : Pointer) (value : Value)
| OpRemove (path : Pointer)
| OpReplace (path : Pointer) (value : Value)
| OpMove (from path : Pointer)
| OpCopy (from path : Pointer)
| OpTest (path : Pointer) (value : Value).

(** A [jsonpatch.Patch] is a slice, [None] being the nil slice. *)
Definition JsonPatch : Type := option (list Operation).

Definition opsOf (p : JsonPatch) : list Operation :=
  match p with
  | Some ops => ops
  | None => []
  end.

(** ** Collaborators *)

(** The two filters handed to [filtersutil.ApplyToJSON]. *)
Inductive Filter : Type :=
| PatchStrategicMergeFilter (Patch : option Value)  (* patchstrategicmerge.Filter{Patch: node} *)
| PatchJson6902Filter (Patch : string).        (* patchjson6902.Filter{Patch: p.Patch} *)

(** What the plugins call and the sources do not contain: the YAML and
    JSON-Patch libraries, the methods of [resource.Resource] that patch
    and (un)marshal it, [kyaml/filtersutil], and the selector matching
    behind [ResMap.Select].  A JSON document in bytes is the field-tree
    it encodes, and a nil pointer or slice is [None]. *)
Class Collaborators : Type := {
  yaml_YAMLToJSON : string -> option string * option Error;
  jsonpatch_DecodePatch : string -> JsonPatch * option Error;
  jsonpatch_Apply : JsonPatch -> option Value -> option Value * option Error;
  resource_Patch : Resource -> Resource -> Resource * option Error;
  resource_MarshalJSON : Resource -> option Value * option Error;
  resource_UnmarshalJSON : option Value -> Resource -> Resource * option Error;
  filtersutil_GetRNode : Resource -> option Value * option Error;
  filtersutil_ApplyToJSON : Filter -> Resource -> Resource * option Error;
  selectorMatches : Selector -> Resource -> bool;
  selectorError : Selector -> option Error
}.

(** [resmap.PluginHelpers]: the loader and the resource factory. *)
Record PluginHelpers : Type := mkPluginHelpers {
  Loader_Load : string -> option string * option Error;
  RF_FromBytes : string -> option Resource * option Error;
  RF_SliceFromBytes : string -> list Resource * option Error;
  RF_SliceFromPatches : list string -> list Resource * option Error;
  ResmapFactory_MergePatches : list Resource -> list Resource * option Error
}.

Section ResMapOps.
Context {C : Collaborators}.

(** [m.Select(s)]: pointers to the resources the selector matches, in
    collection order. *)
Definition Select (s : Selector) (m : ResMap) : list nat * option Error :=
  match selectorError s with
  | Some e => ([], Some e)
  | None => (positions (selectorMatches s) 0 m, None)
  end.

(** Run [f] on the resource at position [i], writing back what it leaves
    there (also when it fails). *)
Definition mutateAt (i : nat) (f : Resource -> Resource * option Error)
    (m : ResMap) : ResMap * option Error :=
  match nth_error m i with
  | Some r => let (r', err) := f r in (replaceAt i r' m, err)
  | None => (m, Some ErrNilDereference)
  end.

(** A [for ... range] loop whose body may return an error. *)
Fixpoint forEach {A : Type} (body : A -> ResMap -> ResMap * option Error)
    (l : list A) (m : ResMap) : ResMap * option Error :=
  match l with
  | [] => (m, None)
  | x :: l' =>
      match body x m with
      | (m', None) => forEach body l' m'
      | (m', Some e) => (m', Some e)
      end
  end.

(** What a loop over the positions selected by [f] computes: [g] is run on
    each selected resource, in order, until it fails. *)
Fixpoint applyAll (g : Resource -> Resource * option Error)
    (f : Resource -> bool) (m : ResMap) : ResMap * option Error :=
  match m with
  | [] => ([], None)
  | r :: m' =>
      if f r then
        match g r with
        | (r', None) => let (m'', e) := applyAll g f m' in (r' :: m'', e)
        | (r', Some e) => (r' :: m', Some e)
        end
      else let (m'', e) := applyAll g f m' in (r :: m'', e)
  end.

End ResMapOps.

Definition isNil {A : Type} (x : option A) : bool :=
  match x with
  | None => true
  | Some _ => false
  end.

(** [string(b)] of a byte slice that may be nil. *)
Definition stringOf (b : option string) : string :=
  match b with
  | Some s => s
  | None => ""
  end.

(** The Go convention on a (value, error) pair: no value next to an error,
    a value next to no error. *)
Definition nilOnError {A : Type} (r : option A * option Error) : Prop :=
  snd r <> None -> fst r = None.

Definition valueOnSuccess {A : Type} (r : option A * option Error) : Prop :=
  snd r = None -> fst r <> None.

(** ** PatchTransformer.go *)

Module PatchTransformer.

Record plugin : Type := mkPlugin {
  loadedPatch : option Resource;
  decodedPatch : JsonPatch;
  Path : string;
  Patch : string;
  Target : option Selector;
  YAMLSupport : bool
}.

(** [var KustomizePlugin plugin]: the zero value. *)
Definition KustomizePlugin : plugin := mkPlugin None None "" "" None false.

Definition setLoadedPatch (x : option Resource) (p : plugin) : plugin :=
  mkPlugin x (decodedPatch p) (Path p) (Patch p) (Target p) (YAMLSupport p).
Definition setDecodedPatch (x : JsonPatch) (p : plugin) : plugin :=
  mkPlugin (loadedPatch p) x (Path p) (Patch p) (Target p) (YAMLSupport p).
Definition setPatch (x : string) (p : plugin) : plugin :=
  mkPlugin (loadedPatch p) (decodedPatch p) (Path p) x (Target p) (YAMLSupport p).
Definition setYAMLSupport (x : bool) (p : plugin) : plugin :=
  mkPlugin (loadedPatch p) (decodedPatch p) (Path p) (Patch p) (Target p) x.

(** [yaml.Unmarshal(c, p)] at this plugin type. *)
Class Yaml : Type := {
  yaml_Unmarshal : string -> plugin -> plugin * option Error
}.

Section Defs.
Context {C : Collaborators} {Y : Yaml}.

(** [jsonPatchFromBytes] loads a Json 6902 patch from a bytes input. *)
Definition jsonPatchFromBytes (in_ : string) : JsonPatch * option Error :=
  let ops := in_ in
  if String.eqb ops "" then (None, Some ErrEmptyJsonPatchOps)
  else
    match ops with
    | String c _ =>
        if negb (Ascii.eqb c "["%char) then
          match yaml_YAMLToJSON in_ with
          | (_, Some err) => (None, Some err)
          | (jsonOps, None) => jsonpatch_DecodePatch (stringOf jsonOps)
          end
        else jsonpatch_DecodePatch ops
    | EmptyString => jsonpatch_DecodePatch ops
    end.

(** Lines 64-81 of [Config]: the patch is parsed both ways and must
    qualify as exactly one kind. *)
Definition classify (h : PluginHelpers) (p : plugin) : plugin * option Error :=
  let '(patchSM, errSM) := RF_FromBytes h (Patch p) in
  let '(patchJson, errJson) := jsonPatchFromBytes (Patch p) in
  if (isNil errSM && isNil errJson)
     || (negb (isNil patchSM) && negb (isNil patchJson))
  then (p, Some (ErrBothSMAndJSON (Patch p)))
  else if negb (isNil errSM) && negb (isNil errJson)
  then (p, Some (ErrUnableToParse (Patch p)))
  else
    if isNil errSM then (setLoadedPatch patchSM p, None)
    else (setDecodedPatch patchJson p, None).

Definition Config (h : PluginHelpers) (c : string) (p : plugin)
    : plugin * option Error :=
  match yaml_Unmarshal c p with
  | (p, Some err) => (p, Some err)
  | (p, None) =>
      let p := if negb (strings.Contains c "yamlSupport")
               then setYAMLSupport true p else p in
      let p := setPatch (strings.TrimSpace (Patch p)) p in
      if String.eqb (Patch p) "" && String.eqb (Path p) ""
      then (p, Some (ErrMustSpecifyPatchOrPath c))
      else if negb (String.eqb (Patch p) "") && negb (String.eqb (Path p) "")
      then (p, Some (ErrPatchAndPath c))
      else
        if negb (String.eqb (Path p) "") then
          match Loader_Load h (Path p) with
          | (_, Some loadErr) => (p, Some loadErr)
          | (loaded, None) => classify h (setPatch (stringOf loaded) p)
          end
        else classify h p
  end.

(** The plugin as [Config] has it after decoding and trimming. *)
Definition decoded (c : string) (p : plugin) : plugin :=
  let p := if negb (strings.Contains c "yamlSupport")
           then setYAMLSupport true p else p in
  setPatch (strings.TrimSpace (Patch p)) p.

(** What [Config] does once the configuration is decoded. *)
Definition afterDecoding (h : PluginHelpers) (c : string) (p : plugin)
    : plugin * option Error :=
  if String.eqb (Patch p) "" && String.eqb (Path p) ""
  then (p, Some (ErrMustSpecifyPatchOrPath c))
  else if negb (String.eqb (Patch p) "") && negb (String.eqb (Path p) "")
  then (p, Some (ErrPatchAndPath c))
  else
    if negb (String.eqb (Path p) "") then
      match Loader_Load h (Path p) with
      | (_, Some loadErr) => (p, Some loadErr)
      | (loaded, None) => classify h (setPatch (stringOf loaded) p)
      end
    else classify h p.

(** The content that [Config] hands to the two parsers: the trimmed inline
    patch, or what the loader returns for the path. *)
Inductive suppliedContent (h : PluginHelpers) (p : plugin) : string -> Prop :=
| inlineContent :
    strings.TrimSpace (Patch p) <> "" -> Path p = "" ->
    suppliedContent h p (strings.TrimSpace (Patch p))
| loadedContent loaded :
    strings.TrimSpace (Patch p) = "" -> Path p <> "" ->
    Loader_Load h (Path p) = (loaded, None) ->
    suppliedContent h p (stringOf loaded).

(** [applySMPatch] applies the strategic merge patch to the resource, by
    the legacy implementation or by the kyaml-based one. *)
Definition applySMPatch (p : plugin) (res patch : Resource)
    : Resource * option Error :=
  if negb (YAMLSupport p) then resource_Patch res (resource.Copy patch)
  else
    match filtersutil_GetRNode patch with
    | (_, Some err) => (res, Some err)
    | (node, None) =>
        filtersutil_ApplyToJSON (PatchStrategicMergeFilter node) res
    end.

(** The copy of the patch made for one selected resource (lines 110-113). *)
Definition patchCopyFor (patch res : Resource) : Resource :=
  let patchCopy := resource.DeepCopy patch in
  let patchCopy := resource.SetName (resource.GetName res) patchCopy in
  let patchCopy := resource.SetNamespace (resource.GetNamespace res) patchCopy in
  resource.SetGvk (resource.GetGvk res) patchCopy.

Definition transformStrategicMerge (p : plugin) (m : ResMap) (patch : Resource)
    : ResMap * option Error :=
  match Target p with
  | None =>
      match resmap.GetById (resource.OrgId patch) m with
      | Err err => (m, Some err)
      | Ok target => mutateAt target (fun res => applySMPatch p res patch) m
      end
  | Some target =>
      match Select target m with
      | (_, Some err) => (m, Some err)
      | (resources, None) =>
          forEach
            (fun res =>
               mutateAt res
                 (fun r => applySMPatch p r (patchCopyFor patch r)))
            resources m
      end
  end.

(** [applyJson6902Patch] applies the patch to the resource, by the legacy
    implementation or by the kyaml-based one. *)
Definition applyJson6902Patch (p : plugin) (res : Resource) (patch : JsonPatch)
    : Resource * option Error :=
  if negb (YAMLSupport p) then
    match resource_MarshalJSON res with
    | (_, Some err) => (res, Some err)
    | (rawObj, None) =>
        match jsonpatch_Apply patch rawObj with
        | (_, Some err) =>
            (res, Some (ErrFailedToApplyJsonPatch err (Patch p)))
        | (modifiedObj, None) => resource_UnmarshalJSON modifiedObj res
        end
    end
  else filtersutil_ApplyToJSON (PatchJson6902Filter (Patch p)) res.

Definition transformJson6902 (p : plugin) (m : ResMap) (patch : JsonPatch)
    : ResMap * option Error :=
  match Target p with
  | None => (m, Some (ErrMustSpecifyTarget (Patch p)))
  | Some target =>
      match Select target m with
      | (_, Some err) => (m, Some err)
      | (resources, None) =>
          forEach
            (fun res => mutateAt res (fun r => applyJson6902Patch p r patch))
            resources m
      end
  end.

Definition Transform (p : plugin) (m : ResMap) : ResMap * option Error :=
  match loadedPatch p with
  | Some patch => transformStrategicMerge p m patch
  | None => transformJson6902 p m (decodedPatch p)
  end.

End Defs.

(** The kind [Transform] takes the configured patch for. *)
Inductive PatchKind : Type :=
| StrategicMerge
| JSONPatchOps.

Definition kindOfPatch (p : plugin) : PatchKind :=
  match loadedPatch p with
  | Some _ => StrategicMerge
  | None => JSONPatchOps
  end.

End PatchTransformer.

(** ** PatchStrategicMergeTransformer.go *)

Module PatchStrategicMergeTransformer.

Record plugin : Type := mkPlugin {
  h : option PluginHelpers;
  loadedPatches : list Resource;
  Paths : list string;
  Patches : string;
  YAMLSupport : bool
}.

Definition KustomizePlugin : plugin := mkPlugin None [] [] "" false.

Definition setH (x : option PluginHelpers) (p : plugin) : plugin :=
  mkPlugin x (loadedPatches p) (Paths p) (Patches p) (YAMLSupport p).
Definition setLoadedPatches (x : list Resource) (p : plugin) : plugin :=
  mkPlugin (h p) x (Paths p) (Patches p) (YAMLSupport p).
Definition setYAMLSupport (x : bool) (p : plugin) : plugin :=
  mkPlugin (h p) (loadedPatches p) (Paths p) (Patches p) x.

Class Yaml : Type := {
  yaml_Unmarshal : string -> plugin -> plugin * option Error
}.

Section Defs.
Context {C : Collaborators} {Y : Yaml}.

(** The loop over [p.Paths] (lines 47-59): a path is first read as literal
    patch content, then as a file reference. *)
Fixpoint loadPaths (hp : PluginHelpers) (paths : list string) (p : plugin)
    : plugin * option Error :=
  match paths with
  | [] => (p, None)
  | onePath :: rest =>
      match RF_SliceFromBytes hp onePath with
      | (res, None) =>
          loadPaths hp rest (setLoadedPatches (loadedPatches p ++ res) p)
      | (_, Some _) =>
          match RF_SliceFromPatches hp [onePath] with
          | (_, Some err) => (p, Some err)
          | (res, None) =>
              loadPaths hp rest (setLoadedPatches (loadedPatches p ++ res) p)
          end
      end
  end.

Definition Config (hp : PluginHelpers) (c : string) (p : plugin)
    : plugin * option Error :=
  let p := setH (Some hp) p in
  match yaml_Unmarshal c p with
  | (p, Some err) => (p, Some err)
  | (p, None) =>
      let p := if negb (strings.Contains c "yamlSupport")
               then setYAMLSupport true p else p in
      if Nat.eqb (List.length (Paths p)) 0 && String.eqb (Patches p) ""
      then (p, Some ErrEmptyPathAndPatch)
      else
        match loadPaths hp (Paths p) p with
        | (p, Some err) => (p, Some err)
        | (p, None) =>
            match (if negb (String.eqb (Patches p) "") then
                     match RF_SliceFromBytes hp (Patches p) with
                     | (_, Some err) => (p, Some err)
                     | (res, None) =>
                         (setLoadedPatches (loadedPatches p ++ res) p, None)
                     end
                   else (p, None)) with
            | (p, Some err) => (p, Some err)
            | (p, None) =>
                if Nat.eqb (List.length (loadedPatches p)) 0
                then (p, Some (ErrPatchAppearsEmpty (Patches p)))
                else (p, None)
            end
        end
  end.

(** The copy of the patch made for its target (lines 89-92). *)
Definition patchCopyFor (patch target : Resource) : Resource :=
  let patchCopy := resource.DeepCopy patch in
  let patchCopy := resource.SetName (resource.GetName target) patchCopy in
  let patchCopy := resource.SetNamespace (resource.GetNamespace target) patchCopy in
  resource.SetGvk (resource.GetGvk target) patchCopy.

(** Lines 86-100: the patch is applied to the target.  [inl] is the state
    in which the [if] statement is left: the target, and the loop body's
    [err]; [inr] is an error returned from inside it.  In the kyaml branch
    [node, err := ...] declares a second [err] for that block, so the
    result of [ApplyToJSON] is assigned to that one, and the loop body's
    [err] keeps the nil it got from [GetById]. *)
Definition applyPatch (p : plugin) (target patch : Resource)
    : (Resource * option Error) + Error :=
  if negb (YAMLSupport p) then
    inl (resource_Patch target (resource.Copy patch))
  else
    let patchCopy := patchCopyFor patch target in
    match filtersutil_GetRNode patchCopy with
    | (_, Some err) => inr err
    | (node, None) =>
        let (target', _) :=
          filtersutil_ApplyToJSON (PatchStrategicMergeFilter node) target in
        inl (target', None)
    end.

(** The body of the loop of [Transform], for one merged patch. *)
Definition transformOne (p : plugin) (patch : Resource) (m : ResMap)
    : ResMap * option Error :=
  match resmap.GetById (resource.OrgId patch) m with
  | Err err => (m, Some err)
  | Ok i =>
      match nth_error m i with
      | None => (m, Some ErrNilDereference)
      | Some target =>
          match applyPatch p target patch with
          | inr err => (m, Some err)
          | inl (target', Some err) => (replaceAt i target' m, Some err)
          | inl (target', None) =>
              let m := replaceAt i target' m in
              if Nat.eqb (List.length (resource.Map target')) 0 then
                (* all fields have been removed from the object: the
                   overall resmap must shrink by one *)
                match resmap.Remove (resource.CurId target') m with
                | Err err => (m, Some err)
                | Ok m' => (m', None)
                end
              else (m, None)
          end
      end
  end.

Definition Transform (p : plugin) (m : ResMap) : ResMap * option Error :=
  match h p with
  | None => (m, Some ErrNilDereference)
  | Some hp =>
      match ResmapFactory_MergePatches hp (loadedPatches p) with
      | (_, Some err) => (m, Some err)
      | (patches, None) => forEach (transformOne p) patches m
      end
  end.

End Defs.

End PatchStrategicMergeTransformer.

(** ** RFC 6902 on the field-tree *)

(** Modelled from the spec: [jsonpatch.Patch.Apply] is not among the
    sources.  Section 4.4 has the operations applied in sequence, each
    addressed by a path pointer into the tree, the first failing one
    aborting the whole application. *)
Module rfc6902.

Definition isDigit (c : ascii) : bool :=
  Nat.leb 48 (nat_of_ascii c) && Nat.leb (nat_of_ascii c) 57.

Fixpoint digits (s : string) (acc : nat) : option nat :=
  match s with
  | EmptyString => Some acc
  | String c s' =>
      if isDigit c then digits s' (acc * 10 + (nat_of_ascii c - 48))
      else None
  end.

(** An array index: decimal digits without a leading zero. *)
Definition parseIndex (tok : string) : option nat :=
  match tok with
  | EmptyString => None
  | String c rest =>
      if Ascii.eqb c "0"%char
      then (if String.eqb rest "" then Some 0 else None)
      else digits tok 0
  end.

Fixpoint getAt (path : Pointer) (doc : Value) : option Value :=
  match path with
  | [] => Some doc
  | tok :: rest =>
      match doc with
      | VMap m =>
          match lookup tok m with
          | Some v => getAt rest v
          | None => None
          end
      | VList l =>
          match parseIndex tok with
          | Some i =>
              match nth_error l i with
              | Some v => getAt rest v
              | None => None
              end
          | None => None
          end
      | _ => None
      end
  end.

Fixpoint setNth (i : nat) (v : Value) (l : list Value) : list Value :=
  match l, i with
  | [], _ => []
  | _ :: l', 0 => v :: l'
  | x :: l', S i' => x :: setNth i' v l'
  end.

Fixpoint dropNth (i : nat) (l : list Value) : list Value :=
  match l, i with
  | [], _ => []
  | _ :: l', 0 => l'
  | x :: l', S i' => x :: dropNth i' l'
  end.

Definition insertNth (i : nat) (v : Value) (l : list Value) : list Value :=
  firstn i l ++ v :: skipn i l.

(** Rewrite the container that holds the last token of a non-empty path
    with [f]; [None] when the way to it is missing. *)
Fixpoint alterAt (path : Pointer) (f : string -> Value -> option Value)
    (doc : Value) : option Value :=
  match path with
  | [] => None
  | tok :: rest =>
      match rest with
      | [] => f tok doc
      | _ :: _ =>
          match doc with
          | VMap m =>
              match lookup tok m with
              | Some v =>
                  match alterAt rest f v with
                  | Some v' => Some (VMap (update tok v' m))
                  | None => None
                  end
              | None => None
              end
          | VList l =>
              match parseIndex tok with
              | Some i =>
                  match nth_error l i with
                  | Some v =>
                      match alterAt rest f v with
                      | Some v' => Some (VList (setNth i v' l))
                      | None => None
                      end
                  | None => None
                  end
              | None => None
              end
          | _ => None
          end
      end
  end.

Definition addChild (v : Value) (tok : string) (parent : Value) : option Value :=
  match parent with
  | VMap m => Some (VMap (upsert tok v m))
  | VList l =>
      if String.eqb tok "-" then Some (VList (l ++ [v]))
      else match parseIndex tok with
           | Some i =>
               if Nat.leb i (List.length l) then Some (VList (insertNth i v l))
               else None
           | None => None
           end
  | _ => None
  end.

Definition removeChild (tok : string) (parent : Value) : option Value :=
  match parent with
  | VMap m =>
      match lookup tok m with
      | Some _ => Some (VMap (remove tok m))
      | None => None
      end
  | VList l =>
      match parseIndex tok with
      | Some i =>
          if Nat.ltb i (List.length l) then Some (VList (dropNth i l)) else None
      | None => None
      end
  | _ => None
  end.

Definition replaceChild (v : Value) (tok : string) (parent : Value) : option Value :=
  match parent with
  | VMap m =>
      match lookup tok m with
      | Some _ => Some (VMap (update tok v m))
      | None => None
      end
  | VList l =>
      match parseIndex tok with
      | Some i =>
          if Nat.ltb i (List.length l) then Some (VList (setNth i v l)) else None
      | None => None
      end
  | _ => None
  end.

Definition add (path : Pointer) (v : Value) (doc : Value) : option Value :=
  match path with
  | [] => Some v
  | _ :: _ => alterAt path (addChild v) doc
  end.

Definition failed (msg : string) : Result Value := Err (ErrFrom ApplyError msg).

Definition orFail (msg : string) (r : option Value) : Result Value :=
  match r with
  | Some v => Ok v
  | None => failed msg
  end.

Definition applyOp (op : Operation) (doc : Value) : Result Value :=
  match op with
  | OpAdd path v => orFail "add: missing parent" (add path v doc)
  | OpRemove path => orFail "remove: missing path" (alterAt path removeChild doc)
  | OpReplace path v =>
      match path with
      | [] => Ok v
      | _ :: _ => orFail "replace: missing path" (alterAt path (replaceChild v) doc)
      end
  | OpMove from path =>
      match getAt from doc with
      | None => failed "move: missing from"
      | Some v =>
          match alterAt from removeChild doc with
          | None => failed "move: cannot remove from"
          | Some doc' => orFail "move: missing parent" (add path v doc')
          end
      end
  | OpCopy from path =>
      match getAt from doc with
      | None => failed "copy: missing from"
      | Some v => orFail "copy: missing parent" (add path v doc)
      end
  | OpTest path v =>
      match getAt path doc with
      | Some v' => if Value_eqb v' v then Ok doc else failed "test: value differs"
      | None => failed "test: missing path"
      end
  end.

Fixpoint applyOps (ops : list Operation) (doc : Value) : Result Value :=
  match ops with
  | [] => Ok doc
  | op :: ops' =>
      match applyOp op doc with
      | Ok doc' => applyOps ops' doc'
      | Err e => Err e
      end
  end.

(** The precondition of an operation fails on [doc], in the cases the
    contract of [applyJSONPatch] names:
    the path is missing for remove and replace, the source is missing for
    move and copy, the value found differs for test. *)
Definition preconditionFails (op : Operation) (doc : Value) : Prop :=
  match op with
  | OpAdd _ _ => False
  | OpRemove path => getAt path doc = None
  | OpReplace path _ => getAt path doc = None
  | OpMove from _ => getAt from doc = None
  | OpCopy from _ => getAt from doc = None
  | OpTest path v => exists v', getAt path doc = Some v' /\ Value_eqb v' v = false
  end.

End rfc6902.

(** ** Strategic merge on the field-tree *)

(** Merging a sequence of keyed entries into another, shared by maps
    (entries keyed by field name), by lists of keyed elements (keyed by
    the merge key) and by the merger of patches (keyed by identity). *)
Section Entries.
Context {E K : Type}.
Variable keqb : K -> K -> bool.
Variable key : E -> K.
Variable isDel : E -> bool.
Variable combine : E -> E -> E.

Fixpoint find (k : K) (l : list E) : option E :=
  match l with
  | [] => None
  | e :: l' => if keqb k (key e) then Some e else find k l'
  end.

(** Put [e] in the place of the first entry of key [k]. *)
Fixpoint replaceKey (k : K) (e : E) (l : list E) : list E :=
  match l with
  | [] => []
  | x :: l' => if keqb k (key x) then e :: l' else x :: replaceKey k e l'
  end.

Fixpoint removeKey (k : K) (l : list E) : list E :=
  match l with
  | [] => []
  | x :: l' => if keqb k (key x) then removeKey k l' else x :: removeKey k l'
  end.

Fixpoint countKey (k : K) (l : list E) : nat :=
  match l with
  | [] => 0
  | x :: l' => if keqb k (key x) then S (countKey k l') else countKey k l'
  end.

(** One entry of the patch meets the target: a delete directive removes
    the entry of that key, an entry of a key the target has is combined
    with it in place, any other entry is appended. *)
Definition mergeEntry (acc : list E) (pe : E) : list E :=
  if isDel pe then removeKey (key pe) acc
  else match find (key pe) acc with
       | Some te => replaceKey (key pe) (combine te pe) acc
       | None => acc ++ [pe]
       end.

Definition mergeEntries (t p : list E) : list E := fold_left mergeEntry p t.

End Entries.

Module strategicmerge.

(** Modelled from the spec: the delete directive of a field is the value
    null (section 4.4: a patch field value that equals the delete
    sentinel removes that field). *)
Definition isDelete (v : Value) : bool :=
  match v with
  | VNull => true
  | _ => false
  end.

Definition fieldDeleted (e : string * Value) : bool := isDelete (snd e).

Section MergeKey.

(** The field that aligns the elements of two lists, declared by
    convention. *)
Variable mergeKey : string.

(** The merge key of a list element: the element is a map that has the
    merge key field once, holding a string. *)
Definition keyOf (e : Value) : option string :=
  match e with
  | VMap em =>
      match find String.eqb fst mergeKey em with
      | Some (_, VStr s) =>
          if Nat.eqb (countKey String.eqb fst mergeKey em) 1 then Some s
          else None
      | _ => None
      end
  | _ => None
  end.

Definition elemKey (e : Value) : string :=
  match keyOf e with
  | Some s => s
  | None => ""
  end.

(** A list of keyed elements: not empty, every element with a merge key. *)
Definition keyed (l : list Value) : bool :=
  match l with
  | [] => false
  | _ :: _ => forallb (fun e => negb (isNil (keyOf e))) l
  end.

(** Modelled from the spec: [applyStrategicMerge] of section 4.4, the
    recursive merge of patch content [p] into resource content [t].
    A deleted field is removed; two maps merge key by key; two lists of
    keyed elements merge element-wise, unmatched elements appended; in any
    other case the patch value replaces the resource value. *)
Fixpoint mergeValue (t p : Value) {struct p} : Value :=
  match p with
  | VMap pm =>
      match t with
      | VMap tm =>
          VMap (mergeEntries String.eqb fst fieldDeleted
                  (fun te pe => (fst te, mergeValue (snd te) (snd pe)))
                  tm pm)
      | _ => p
      end
  | VList pl =>
      match t with
      | VList tl =>
          if keyed tl && keyed pl
          then VList (mergeEntries String.eqb elemKey (fun _ => false)
                        (fun te pe => mergeValue te pe) tl pl)
          else p
      | _ => p
      end
  | _ => p
  end.

Definition mergeField (te pe : string * Value) : string * Value :=
  (fst te, mergeValue (snd te) (snd pe)).

Definition mergeFields (tm pm : Fields) : Fields :=
  mergeEntries String.eqb fst fieldDeleted mergeField tm pm.

(** [applyStrategicMerge(resource, patchContent)]. *)
Definition applyStrategicMerge (res patch : Resource) : Resource :=
  resource.SetMap (mergeFields (rMap res) (rMap patch)) res.

(** Modelled from the spec: the Patch Merger of section 4.2.  The patches
    of one identity are folded, in input order, through the strategic
    merge, each successive patch as the patch and the running result as
    the target; there is one consolidated patch for each identity.
    Patches of pairwise distinct identities, a single patch among them,
    come out as they went in. *)
Definition MergePatches (patches : list Resource) : list Resource :=
  mergeEntries ResId_eqb resource.OrgId (fun _ => false)
    applyStrategicMerge [] patches.

End MergeKey.

End strategicmerge.

(** ** The collaborators as the spec has them *)

(** The codecs and the selector matching stay outside the engine
    (section 1); the rest of the collaborators is built from them. *)
Record Codec : Type := mkCodec {
  codec_YAMLToJSON : string -> option string * option Error;
  codec_DecodePatch : string -> JsonPatch * option Error;
  codec_selectorMatches : Selector -> Resource -> bool;
  codec_selectorError : Selector -> option Error
}.

Module specmodel.

Section WithCodec.
Variable mergeKey : string.
Variable codec : Codec.

(** The decoding [patchjson6902.Filter] does of its [Patch] string:
    content that does not start with '[' goes through YAML first. *)
Definition decodePatch (patch : string) : JsonPatch * option Error :=
  match patch with
  | String c _ =>
      if Ascii.eqb c "["%char then codec_DecodePatch codec patch
      else
        match codec_YAMLToJSON codec patch with
        | (_, Some err) => (None, Some err)
        | (jsonOps, None) => codec_DecodePatch codec (stringOf jsonOps)
        end
  | EmptyString =>
      match codec_YAMLToJSON codec patch with
      | (_, Some err) => (None, Some err)
      | (jsonOps, None) => codec_DecodePatch codec (stringOf jsonOps)
      end
  end.

(** Modelled from the spec: [resource.Patch], the legacy strategy of
    [applyStrategicMerge] (section 4.4). *)
Definition Patch (target patch : Resource) : Resource * option Error :=
  (strategicmerge.applyStrategicMerge mergeKey target patch, None).

(** Modelled from the spec: the resource serialized to its canonical
    field-tree, and a tree written back into the resource in place. *)
Definition MarshalJSON (r : Resource) : option Value * option Error :=
  (Some (VMap (rMap r)), None).

Definition UnmarshalJSON (doc : option Value) (r : Resource)
    : Resource * option Error :=
  match doc with
  | Some (VMap m) => (resource.SetMap m r, None)
  | _ => (r, Some (ErrFrom ParseError "not a JSON object"))
  end.

Definition GetRNode (r : Resource) : option Value * option Error :=
  (Some (VMap (rMap r)), None).

(** Modelled from the spec: [jsonpatch.Patch.Apply]. *)
Definition Apply (patch : JsonPatch) (doc : option Value)
    : option Value * option Error :=
  match doc with
  | Some d =>
      match rfc6902.applyOps (opsOf patch) d with
      | Ok d' => (Some d', None)
      | Err e => (None, Some e)
      end
  | None => (None, Some (ErrFrom ParseError "unexpected end of JSON input"))
  end.

(** Modelled from the spec: [filtersutil.ApplyToJSON], the structured-tree
    strategy.  The resource is read as a tree, the filter is run on it,
    and the result is written back; when the filter fails nothing is
    written. *)
Definition ApplyToJSON (f : Filter) (r : Resource) : Resource * option Error :=
  match f with
  | PatchStrategicMergeFilter node =>
      match node with
      | Some (VMap pm) =>
          (resource.SetMap (strategicmerge.mergeFields mergeKey (rMap r) pm) r,
           None)
      | _ => (r, Some (ErrFrom ApplyError "patch is not a mapping"))
      end
  | PatchJson6902Filter patch =>
      match decodePatch patch with
      | (_, Some err) => (r, Some err)
      | (ops, None) =>
          match rfc6902.applyOps (opsOf ops) (VMap (rMap r)) with
          | Err e => (r, Some e)
          | Ok doc => UnmarshalJSON (Some doc) r
          end
      end
  end.

Definition collaborators : Collaborators := {|
  yaml_YAMLToJSON := codec_YAMLToJSON codec;
  jsonpatch_DecodePatch := codec_DecodePatch codec;
  jsonpatch_Apply := Apply;
  resource_Patch := Patch;
  resource_MarshalJSON := MarshalJSON;
  resource_UnmarshalJSON := UnmarshalJSON;
  filtersutil_GetRNode := GetRNode;
  filtersutil_ApplyToJSON := ApplyToJSON;
  selectorMatches := codec_selectorMatches codec;
  selectorError := codec_selectorError codec
|}.

End WithCodec.

End specmodel.

(** ** Sample inputs *)

(** A small codec and a few resources, to run the definitions on. *)
Module sample.

Definition parseError (msg : string) : Error := ErrFrom ParseError msg.

Definition testOps : list Operation := [OpTest ["x"] (VNum 1)].

(** Knows one JSON operation array and its YAML form. *)
Definition codec : Codec := {|
  codec_YAMLToJSON := fun s =>
    if String.eqb s "- {op: test, path: /x, value: 1}"
    then (Some "[{op: test, path: /x, value: 1}]", None)
    else (Some s, None);
  codec_DecodePatch := fun s =>
    if String.eqb s "[{op: test, path: /x, value: 1}]"
    then (Some testOps, None)
    else if String.eqb s "[{op: remove, path: /spec/replicas}]"
    then (Some [OpRemove ["spec"; "replicas"]], None)
    else (None, Some (parseError "not an operation array"));
  codec_selectorMatches := fun sel r =>
    (String.eqb (Kind (selGvk sel)) "" || String.eqb (Kind (selGvk sel)) (Kind (rGvk r)))
    && (String.eqb (selName sel) "" || String.eqb (selName sel) (rName r))
    && (String.eqb (selNamespace sel) "" || String.eqb (selNamespace sel) (rNamespace r));
  codec_selectorError := fun _ => None
|}.

Definition collaborators : Collaborators :=
  specmodel.collaborators "name" codec.

Definition deployment (name : string) (fields : Fields) : Resource :=
  let g := mkGvk "apps" "v1" "Deployment" in
  mkResource (mkResId g name "default") g name "default" fields.

Definition anyKind (kind : string) : Selector :=
  mkSelector (mkGvk "" "" kind) "" "" "" "".

(** Reads a document in braces as one strategic-merge patch for the
    deployment [web]. *)
Definition helpers : PluginHelpers := {|
  Loader_Load := fun path =>
    if String.eqb path "patch.yaml" then (Some "{a: 1}", None)
    else (None, Some (ErrFrom NotFoundError "no such file"));
  RF_FromBytes := fun s =>
    if String.prefix "{" s
    then (Some (deployment "web" [("a", VNum 1)]), None)
    else (None, Some (parseError "not a resource"));
  RF_SliceFromBytes := fun s =>
    if String.prefix "{" s
    then ([deployment "web" [("a", VNum 1)]], None)
    else ([], Some (parseError "not a resource"));
  RF_SliceFromPatches := fun _ => ([], Some (ErrFrom NotFoundError "no such file"));
  ResmapFactory_MergePatches := fun ps =>
    (strategicmerge.MergePatches "name" ps, None)
|}.

(** Decodes the few configurations used below. *)
Definition yaml : PatchTransformer.Yaml := {|
  PatchTransformer.yaml_Unmarshal := fun c p =>
    let set patch path sup :=
      PatchTransformer.mkPlugin (PatchTransformer.loadedPatch p)
        (PatchTransformer.decodedPatch p) path patch
        (PatchTransformer.Target p) sup in
    if String.eqb c "patch: '{a: 1}'"
    then (set "{a: 1}" "" (PatchTransformer.YAMLSupport p), None)
    else if String.eqb c "patch: '- {op: test, path: /x, value: 1}'"
    then (set "- {op: test, path: /x, value: 1}" "" (PatchTransformer.YAMLSupport p), None)
    else if String.eqb c "patch: '{yamlSupport: 1}'"
    then (set "{yamlSupport: 1}" "" (PatchTransformer.YAMLSupport p), None)
    else if String.eqb c "path: patch.yaml"
    then (set "" "patch.yaml" (PatchTransformer.YAMLSupport p), None)
    else if String.eqb c "{}"
    then (p, None)
    else if String.eqb c "{patch: '{a: 1}', path: patch.yaml}"
    then (set "{a: 1}" "patch.yaml" (PatchTransformer.YAMLSupport p), None)
    else (p, Some (parseError "yaml: cannot unmarshal"))
|}.

Definition yamlSM : PatchStrategicMergeTransformer.Yaml := {|
  PatchStrategicMergeTransformer.yaml_Unmarshal := fun c p =>
    if String.eqb c "patches: '{a: 1}'"
    then (PatchStrategicMergeTransformer.mkPlugin
            (PatchStrategicMergeTransformer.h p)
            (PatchStrategicMergeTransformer.loadedPatches p)
            [] "{a: 1}" (PatchStrategicMergeTransformer.YAMLSupport p), None)
    else if String.eqb c "{}"
    then (p, None)
    else (p, Some (parseError "yaml: cannot unmarshal"))
|}.

(** Modelled from the spec: section 7 has a malformed merge directive met
    in mid-merge fail as an ApplyError.  Here the directive is the field
    [$patch], and both strategies refuse a patch in which it holds anything
    but [delete], [merge] or [replace]; a patch without it is merged as
    above. *)
Definition malformedDirective (pm : Fields) : bool :=
  match lookup "$patch" pm with
  | Some (VStr d) =>
      negb (String.eqb d "delete" || String.eqb d "merge" || String.eqb d "replace")
  | Some _ => true
  | None => false
  end.

Definition badPatchType : Error := ErrFrom ApplyError "unknown patch type".

Definition strictCollaborators : Collaborators := {|
  yaml_YAMLToJSON := codec_YAMLToJSON codec;
  jsonpatch_DecodePatch := codec_DecodePatch codec;
  jsonpatch_Apply := specmodel.Apply;
  resource_Patch := fun target patch =>
    if malformedDirective (rMap patch) then (target, Some badPatchType)
    else specmodel.Patch "name" target patch;
  resource_MarshalJSON := specmodel.MarshalJSON;
  resource_UnmarshalJSON := specmodel.UnmarshalJSON;
  filtersutil_GetRNode := specmodel.GetRNode;
  filtersutil_ApplyToJSON := fun f r =>
    match f with
    | PatchStrategicMergeFilter (Some (VMap pm)) =>
        if malformedDirective pm then (r, Some badPatchType)
        else specmodel.ApplyToJSON "name" codec f r
    | _ => specmodel.ApplyToJSON "name" codec f r
    end;
  selectorMatches := codec_selectorMatches codec;
  selectorError := codec_selectorError codec
|}.

(** The resources and patches of the examples. *)
Definition web : Resource := deployment "web" [("a", VNum 1)].
Definition db : Resource := deployment "db" [("b", VNum 2)].
Definition emptyWeb : Resource := deployment "web" [("a", VNull)].
Definition bogusWeb : Resource := deployment "web" [("$patch", VStr "bogus")].
Definition extendDb : Resource := deployment "db" [("c", VNum 3)].

(** A patch for the deployment [web]. *)
Definition setG : Resource := deployment "web" [("g", VNum 1)].
End sample.

(** ** Further definitions *)

(** The string holds ASCII white space only. *)
Definition onlyAsciiSpace (s : string) : bool :=
  forallb strings.asciiSpace (strings.bytesOf s).

(** The collaborators [C], with every error of [filtersutil.ApplyToJSON]
    replaced by nil. *)
Definition withoutApplyErrors (C : Collaborators) : Collaborators := {|
  yaml_YAMLToJSON := yaml_YAMLToJSON;
  jsonpatch_DecodePatch := jsonpatch_DecodePatch;
  jsonpatch_Apply := jsonpatch_Apply;
  resource_Patch := resource_Patch;
  resource_MarshalJSON := resource_MarshalJSON;
  resource_UnmarshalJSON := resource_UnmarshalJSON;
  filtersutil_GetRNode := filtersutil_GetRNode;
  filtersutil_ApplyToJSON := fun f r => (fst (filtersutil_ApplyToJSON f r), None);
  selectorMatches := selectorMatches;
  selectorError := selectorError
|}.

(** What the loop of the multi-patch [Config] loads for one entry of
    [paths]: the entry read as patch content or, when that fails, as a
    file reference. *)
Definition loadOnePath (hp : PluginHelpers) (onePath : string)
    : list Resource * option Error :=
  match RF_SliceFromBytes hp onePath with
  | (res, None) => (res, None)
  | (_, Some _) => RF_SliceFromPatches hp [onePath]
  end.

(** More sample inputs: decoders that yield given fields whatever the
    bytes, and helpers with a file that cannot be read. *)
Module doubles.

Definition yamlOf (patch path : string) (target : option Selector)
    : PatchTransformer.Yaml := {|
  PatchTransformer.yaml_Unmarshal := fun _ p =>
    (PatchTransformer.mkPlugin (PatchTransformer.loadedPatch p)
       (PatchTransformer.decodedPatch p) path patch target
       (PatchTransformer.YAMLSupport p), None)
|}.

Definition yamlSMOf (paths : list string) (patches : string)
    : PatchStrategicMergeTransformer.Yaml := {|
  PatchStrategicMergeTransformer.yaml_Unmarshal := fun _ p =>
    (PatchStrategicMergeTransformer.mkPlugin
       (PatchStrategicMergeTransformer.h p)
       (PatchStrategicMergeTransformer.loadedPatches p)
       paths patches (PatchStrategicMergeTransformer.YAMLSupport p), None)
|}.

Definition notFound : Error := ErrFrom NotFoundError "no such file".

(** Reads [{...}] as one patch for the deployment [web] and [[...]] as no
    resource at all; knows the file [patch.yaml] only. *)
Definition helpers : PluginHelpers := {|
  Loader_Load := fun path =>
    if String.eqb path "patch.yaml"
    then (Some "[{op: test, path: /x, value: 1}]", None)
    else (Some "partial read", Some notFound);
  RF_FromBytes := fun s =>
    if String.prefix "{" s
    then (Some (sample.deployment "web" [("a", VNum 1)]), None)
    else (None, Some (sample.parseError "not a resource"));
  RF_SliceFromBytes := fun s =>
    if String.prefix "{" s
    then ([sample.deployment "web" [("a", VNum 1)]], None)
    else if String.prefix "#" s then ([], None)
    else ([], Some (sample.parseError "not a resource"));
  RF_SliceFromPatches := fun paths =>
    match paths with
    | [path] =>
        if String.eqb path "db.yaml"
        then ([sample.deployment "db" [("c", VNum 3)]], None)
        else ([], Some notFound)
    | _ => ([], Some notFound)
    end;
  ResmapFactory_MergePatches := fun ps => (ps, None)
|}.

(** Collaborators whose applicators fail on the deployment [db]. *)
Definition failOnDb : Collaborators := {|
  yaml_YAMLToJSON := codec_YAMLToJSON sample.codec;
  jsonpatch_DecodePatch := codec_DecodePatch sample.codec;
  jsonpatch_Apply := fun patch doc =>
    match doc with
    | Some (VMap m) =>
        match lookup "b" m with
        | Some _ => (None, Some (ErrFrom ApplyError "cannot patch db"))
        | None => specmodel.Apply patch doc
        end
    | _ => specmodel.Apply patch doc
    end;
  resource_Patch := fun target patch =>
    if String.eqb (rName target) "db"
    then (target, Some (ErrFrom ApplyError "cannot patch db"))
    else specmodel.Patch "name" target patch;
  resource_MarshalJSON := specmodel.MarshalJSON;
  resource_UnmarshalJSON := specmodel.UnmarshalJSON;
  filtersutil_GetRNode := specmodel.GetRNode;
  filtersutil_ApplyToJSON := fun f r =>
    if String.eqb (rName r) "db"
    then (r, Some (ErrFrom ApplyError "cannot patch db"))
    else specmodel.ApplyToJSON "name" sample.codec f r;
  selectorMatches := codec_selectorMatches sample.codec;
  selectorError := codec_selectorError sample.codec
|}.

Definition cache : Resource := sample.deployment "cache" [("z", VNum 0)].

End doubles.

(* ================================================================= *)
(** * Part II: theorems *)
(* ================================================================= *)

(** ** Go conventions on a (value, error) pair *)

Lemma isNil_true {A : Type} (x : option A) : isNil x = true <-> x = None.
Proof. destruct x; simpl; split; congruence. Qed.

Lemma isNil_false {A : Type} (x : option A) : isNil x = false <-> x <> None.
Proof. destruct x; simpl; split; congruence. Qed.

(** ** Configuration of the single-patch plugin *)

Module ConfigFacts.
Import PatchTransformer.

Section WithCollaborators.
Context {C : Collaborators} {Y : Yaml}.

Lemma Config_afterDecoding h c p0 p1 :
  yaml_Unmarshal c p0 = (p1, None) ->
  Config h c p0 = afterDecoding h c (decoded c p1).
Proof. intros Hu. unfold Config. rewrite Hu. reflexivity. Qed.

Lemma decoded_Patch c p : Patch (decoded c p) = strings.TrimSpace (Patch p).
Proof. unfold decoded. destruct (negb _); reflexivity. Qed.

Lemma decoded_Path c p : Path (decoded c p) = Path p.
Proof. unfold decoded. destruct (negb _); reflexivity. Qed.

Lemma decoded_loadedPatch c p : loadedPatch (decoded c p) = loadedPatch p.
Proof. unfold decoded. destruct (negb _); reflexivity. Qed.

Lemma decoded_YAMLSupport c p :
  YAMLSupport (decoded c p)
  = if strings.Contains c "yamlSupport" then YAMLSupport p else true.
Proof. unfold decoded. destruct (strings.Contains _ _); reflexivity. Qed.

Lemma eqb_empty_false s : s <> "" -> String.eqb s "" = false.
Proof. intro H. apply String.eqb_neq. exact H. Qed.

(** With exactly one source of content, [Config] is the classification of
    that content. *)
Lemma Config_reaches_classify h c p0 p1 content :
  yaml_Unmarshal c p0 = (p1, None) ->
  suppliedContent h p1 content ->
  Config h c p0 = classify h (setPatch content (decoded c p1)).
Proof.
  intros Hu Hs. rewrite (Config_afterDecoding h c p0 p1 Hu).
  unfold afterDecoding. rewrite decoded_Patch, decoded_Path.
  destruct Hs as [Hp Hq | loaded Hp Hq Hl].
  - rewrite Hq, (eqb_empty_false _ Hp). simpl.
    f_equal. rewrite <- (decoded_Patch c p1).
    destruct (decoded c p1); reflexivity.
  - rewrite Hp, (eqb_empty_false _ Hq). simpl. rewrite Hl. reflexivity.
Qed.

Lemma jsonPatchFromBytes_nilOnError :
  (forall s, nilOnError (jsonpatch_DecodePatch s)) ->
  forall s, nilOnError (jsonPatchFromBytes s).
Proof.
  intros Hd s. unfold jsonPatchFromBytes.
  destruct (String.eqb s ""); [intros _; reflexivity|].
  destruct s as [|a s]; [apply Hd|].
  destruct (negb (Ascii.eqb a "[")); [|apply Hd].
  destruct (yaml_YAMLToJSON (String a s)) as [j [e|]]; [intros _; reflexivity|].
  apply Hd.
Qed.

Lemma classify_YAMLSupport h p :
  YAMLSupport (fst (classify h p)) = YAMLSupport p.
Proof.
  unfold classify.
  destruct (RF_FromBytes h (Patch p)) as [patchSM errSM].
  destruct (jsonPatchFromBytes (Patch p)) as [patchJson errJson].
  destruct (_ || _); [reflexivity|].
  destruct (_ && _); [reflexivity|].
  destruct (isNil errSM); reflexivity.
Qed.

Lemma Config_YAMLSupport h c p0 p1 :
  yaml_Unmarshal c p0 = (p1, None) ->
  YAMLSupport (fst (Config h c p0))
  = if strings.Contains c "yamlSupport" then YAMLSupport p1 else true.
Proof.
  intros Hu. rewrite <- decoded_YAMLSupport.
  rewrite (Config_afterDecoding h c p0 p1 Hu). unfold afterDecoding.
  destruct (_ && _); [reflexivity|].
  destruct (_ && _); [reflexivity|].
  destruct (negb _).
  - destruct (Loader_Load h (Path (decoded c p1))) as [loaded [e|]];
      [reflexivity|].
    rewrite classify_YAMLSupport. reflexivity.
  - apply classify_YAMLSupport.
Qed.

(** C1.  For the content given to the single-patch loader, [Config] fails
    with the ambiguity error, a ConfigError, when the content parses both
    as a strategic-merge resource and as a JSON-Patch operation array;
    fails with the unparseable-content error, a ParseError, when it parses
    as neither; and otherwise succeeds with the patch classified as the one
    kind that parsed.  The parsers follow the Go convention: a nil value
    next to an error, and a resource next to no error. *)
Theorem Config_classifies_patch
    h c p0 p1 content patchSM errSM patchJson errJson :
  (forall s, nilOnError (RF_FromBytes h s)) ->
  (forall s, valueOnSuccess (RF_FromBytes h s)) ->
  (forall s, nilOnError (jsonpatch_DecodePatch s)) ->
  yaml_Unmarshal c p0 = (p1, None) ->
  loadedPatch p1 = None ->
  suppliedContent h p1 content ->
  RF_FromBytes h content = (patchSM, errSM) ->
  jsonPatchFromBytes content = (patchJson, errJson) ->
  (errSM = None -> errJson = None ->
     snd (Config h c p0) = Some (ErrBothSMAndJSON content)
     /\ kindOf (ErrBothSMAndJSON content) = ConfigError)
  /\ (errSM <> None -> errJson <> None ->
     snd (Config h c p0) = Some (ErrUnableToParse content)
     /\ kindOf (ErrUnableToParse content) = ParseError)
  /\ (errSM = None -> errJson <> None ->
     snd (Config h c p0) = None
     /\ kindOfPatch (fst (Config h c p0)) = StrategicMerge
     /\ loadedPatch (fst (Config h c p0)) = patchSM)
  /\ (errSM <> None -> errJson = None ->
     snd (Config h c p0) = None
     /\ kindOfPatch (fst (Config h c p0)) = JSONPatchOps
     /\ decodedPatch (fst (Config h c p0)) = patchJson).
Proof.
  intros Hsm1 Hsm2 Hdec Hu Hfresh Hs HSM HJ.
  rewrite (Config_reaches_classify h c p0 p1 content Hu Hs).
  pose proof (Hsm1 content) as N1. pose proof (Hsm2 content) as N2.
  pose proof (jsonPatchFromBytes_nilOnError Hdec content) as N3.
  rewrite HSM in N1, N2. rewrite HJ in N3.
  unfold nilOnError, valueOnSuccess in *. simpl in N1, N2, N3.
  unfold classify.
  replace (Patch (setPatch content (decoded c p1))) with content by reflexivity.
  rewrite HSM, HJ.
  repeat split.
  - subst. reflexivity.
  - destruct errSM; [|congruence]. destruct errJson; [|congruence].
    rewrite N1, N3 by congruence. reflexivity.
  - destruct errSM; [congruence|]. destruct errJson; [|congruence].
    rewrite N3 by congruence. simpl. rewrite andb_false_r. reflexivity.
  - destruct errSM; [congruence|]. destruct errJson; [|congruence].
    rewrite N3 by congruence. simpl. rewrite andb_false_r. simpl.
    unfold kindOfPatch. simpl. destruct patchSM; [reflexivity|].
    exfalso. apply N2; reflexivity.
  - destruct errSM; [congruence|]. destruct errJson; [|congruence].
    rewrite N3 by congruence. simpl. rewrite andb_false_r. reflexivity.
  - destruct errSM; [|congruence]. destruct errJson; [congruence|].
    rewrite N1 by congruence. reflexivity.
  - destruct errSM; [|congruence]. destruct errJson; [congruence|].
    rewrite N1 by congruence. cbn [isNil negb andb orb fst snd].
    unfold kindOfPatch.
    change (loadedPatch (setDecodedPatch patchJson (setPatch content (decoded c p1))))
      with (loadedPatch (decoded c p1)).
    rewrite decoded_loadedPatch, Hfresh. reflexivity.
  - destruct errSM; [|congruence]. destruct errJson; [congruence|].
    rewrite N1 by congruence. reflexivity.
Qed.

(** C6.  In the single-patch shape [Config] fails when neither an inline
    patch nor a path is supplied, fails when both are, and succeeds only
    when exactly one is.  The inline patch counts as supplied when it is
    not empty once trimmed, which is how [Config] reads it. *)
Theorem Config_requires_exactly_one h c p0 p1 uerr :
  yaml_Unmarshal c p0 = (p1, uerr) ->
  (strings.TrimSpace (Patch p1) = "" -> Path p1 = "" ->
     snd (Config h c p0)
     = Some (match uerr with
             | Some e => e
             | None => ErrMustSpecifyPatchOrPath c
             end))
  /\ (strings.TrimSpace (Patch p1) <> "" -> Path p1 <> "" ->
     snd (Config h c p0)
     = Some (match uerr with
             | Some e => e
             | None => ErrPatchAndPath c
             end))
  /\ (snd (Config h c p0) = None ->
     uerr = None
     /\ ((strings.TrimSpace (Patch p1) <> "" /\ Path p1 = "")
         \/ (strings.TrimSpace (Patch p1) = "" /\ Path p1 <> ""))).
Proof.
  intros Hu.
  destruct uerr as [e|].
  { unfold Config. rewrite Hu. simpl. repeat split; try reflexivity.
    all: discriminate. }
  rewrite (Config_afterDecoding h c p0 p1 Hu). unfold afterDecoding.
  rewrite decoded_Patch, decoded_Path.
  destruct (String.eqb_spec (strings.TrimSpace (Patch p1)) "") as [Hp|Hp];
    destruct (String.eqb_spec (Path p1) "") as [Hq|Hq]; simpl.
  - split; [reflexivity|]. split; [congruence|]. discriminate.
  - split; [congruence|]. split; [congruence|].
    intros _. split; [reflexivity|]. right. split; assumption.
  - split; [congruence|]. split; [congruence|].
    intros _. split; [reflexivity|]. left. split; assumption.
  - split; [congruence|]. split; [reflexivity|]. discriminate.
Qed.

(** C10.  Content whose first byte is not '[' is converted from YAML to
    JSON before it is decoded, so an operation array written in YAML
    decodes as a JSON patch; and empty content is an error before any
    decoding, so it is never taken for a JSON patch. *)
Theorem jsonPatchFromBytes_converts_yaml_first :
  (forall a rest, a <> "["%char ->
     jsonPatchFromBytes (String a rest)
     = match yaml_YAMLToJSON (String a rest) with
       | (_, Some err) => (None, Some err)
       | (jsonOps, None) => jsonpatch_DecodePatch (stringOf jsonOps)
       end)
  /\ (forall a rest json ops, a <> "["%char ->
     yaml_YAMLToJSON (String a rest) = (Some json, None) ->
     jsonpatch_DecodePatch json = (ops, None) ->
     jsonPatchFromBytes (String a rest) = (ops, None))
  /\ jsonPatchFromBytes "" = (None, Some ErrEmptyJsonPatchOps)
  /\ (forall h p, Patch p = "" ->
     decodedPatch (fst (classify h p)) = decodedPatch p).
Proof.
  assert (H1 : forall a rest, a <> "["%char ->
     jsonPatchFromBytes (String a rest)
     = match yaml_YAMLToJSON (String a rest) with
       | (_, Some err) => (None, Some err)
       | (jsonOps, None) => jsonpatch_DecodePatch (stringOf jsonOps)
       end).
  { intros a rest Ha. unfold jsonPatchFromBytes.
    cbn [String.eqb].
    destruct (Ascii.eqb_spec a "["%char) as [E|E]; [contradiction|].
    reflexivity. }
  split; [exact H1|]. split; [|split].
  - intros a rest json ops Ha Hy Hd. rewrite (H1 a rest Ha), Hy. exact Hd.
  - reflexivity.
  - intros h p Hp. unfold classify. rewrite Hp.
    destruct (RF_FromBytes h "") as [patchSM errSM].
    change (jsonPatchFromBytes "") with (@None (list Operation), Some ErrEmptyJsonPatchOps).
    destruct errSM, patchSM; reflexivity.
Qed.

End WithCollaborators.

#[local] Existing Instance sample.collaborators.
#[local] Existing Instance sample.yaml.

Lemma sample_FromBytes_nilOnError s :
  nilOnError (RF_FromBytes sample.helpers s).
Proof.
  unfold nilOnError. simpl. destruct (String.prefix "{" s); simpl; congruence.
Defined.

Lemma sample_FromBytes_valueOnSuccess s :
  valueOnSuccess (RF_FromBytes sample.helpers s).
Proof.
  unfold valueOnSuccess. simpl. destruct (String.prefix "{" s); simpl; congruence.
Defined.

Lemma sample_DecodePatch_nilOnError s : nilOnError (jsonpatch_DecodePatch s).
Proof.
  unfold nilOnError. simpl.
  destruct (String.eqb s _); [simpl; congruence|].
  destruct (String.eqb s _); simpl; congruence.
Defined.

(** The inline patch [{a: 1}] parses as a resource only: it is loaded as a
    strategic-merge patch. *)
Lemma Config_classifies_patch_witness :
  snd (Config sample.helpers "patch: '{a: 1}'" KustomizePlugin) = None
  /\ kindOfPatch (fst (Config sample.helpers "patch: '{a: 1}'" KustomizePlugin))
     = StrategicMerge
  /\ loadedPatch (fst (Config sample.helpers "patch: '{a: 1}'" KustomizePlugin))
     = Some (sample.deployment "web" [("a", VNum 1)]).
Proof.
  refine (proj1 (proj2 (proj2
    (Config_classifies_patch sample.helpers "patch: '{a: 1}'" KustomizePlugin
       (mkPlugin None None "" "{a: 1}" None false) "{a: 1}"
       (Some (sample.deployment "web" [("a", VNum 1)])) None
       None (Some (sample.parseError "not an operation array"))
       sample_FromBytes_nilOnError sample_FromBytes_valueOnSuccess
       sample_DecodePatch_nilOnError _ _ _ _ _))) _ _).
  - reflexivity.
  - reflexivity.
  - exact (inlineContent sample.helpers
             (mkPlugin None None "" "{a: 1}" None false)
             ltac:(vm_compute; discriminate) eq_refl).
  - reflexivity.
  - reflexivity.
  - reflexivity.
  - discriminate.
Defined.

(** A configuration with both an inline patch and a path is refused. *)
Lemma Config_requires_exactly_one_witness :
  snd (Config sample.helpers "{patch: '{a: 1}', path: patch.yaml}" KustomizePlugin)
  = Some (ErrPatchAndPath "{patch: '{a: 1}', path: patch.yaml}").
Proof.
  refine (proj1 (proj2
    (Config_requires_exactly_one sample.helpers
       "{patch: '{a: 1}', path: patch.yaml}" KustomizePlugin
       (mkPlugin None None "patch.yaml" "{a: 1}" None false) None _)) _ _).
  - reflexivity.
  - vm_compute. discriminate.
  - simpl. discriminate.
Defined.

(** The operation array in YAML block form decodes as a JSON patch. *)
Lemma jsonPatchFromBytes_converts_yaml_first_witness :
  jsonPatchFromBytes "- {op: test, path: /x, value: 1}"
  = (Some sample.testOps, None).
Proof.
  refine (proj1 (proj2 jsonPatchFromBytes_converts_yaml_first)
            "-"%char " {op: test, path: /x, value: 1}"
            "[{op: test, path: /x, value: 1}]" (Some sample.testOps) _ _ _).
  - discriminate.
  - reflexivity.
  - reflexivity.
Defined.

End ConfigFacts.

(** ** Loops over a resource collection *)

Section Loops.

Lemma nth_error_middle (m1 : ResMap) r m2 :
  nth_error (m1 ++ r :: m2) (List.length m1) = Some r.
Proof. induction m1; simpl; auto. Qed.

Lemma replaceAt_middle (m1 : ResMap) r r' m2 :
  replaceAt (List.length m1) r' (m1 ++ r :: m2) = m1 ++ r' :: m2.
Proof. induction m1; simpl; [reflexivity|]. rewrite IHm1. reflexivity. Qed.

Lemma replaceAt_length i r m : List.length (replaceAt i r m) = List.length m.
Proof.
  revert i. induction m as [|x m IH]; intros i; [destruct i; reflexivity|].
  destruct i; simpl; [reflexivity|]. rewrite IH. reflexivity.
Qed.

Lemma mutateAt_length i g m :
  List.length (fst (mutateAt i g m)) = List.length m.
Proof.
  unfold mutateAt. destruct (nth_error m i) as [r|]; [|reflexivity].
  destruct (g r) as [r' e]. simpl. apply replaceAt_length.
Qed.

Lemma forEach_length {A : Type} (body : A -> ResMap -> ResMap * option Error) :
  (forall x m, List.length (fst (body x m)) = List.length m) ->
  forall l m, List.length (fst (forEach body l m)) = List.length m.
Proof.
  intros Hb l. induction l as [|x l IH]; intros m; [reflexivity|].
  simpl. pose proof (Hb x m) as Hx.
  destruct (body x m) as [m' [e|]]; simpl in *; [exact Hx|].
  rewrite IH. exact Hx.
Qed.

Lemma forEach_positions g f : forall m2 m1,
  forEach (fun i => mutateAt i g) (positions f (List.length m1) m2) (m1 ++ m2)
  = let (m2', e) := applyAll g f m2 in (m1 ++ m2', e).
Proof.
  induction m2 as [|r m2 IH]; intros m1; [reflexivity|].
  simpl. destruct (f r).
  - simpl. unfold mutateAt at 1. rewrite nth_error_middle.
    destruct (g r) as [r' [e|]]; rewrite replaceAt_middle; [reflexivity|].
    specialize (IH (m1 ++ [r'])).
    rewrite length_app, Nat.add_comm in IH. simpl in IH.
    rewrite <- app_assoc in IH. simpl in IH. rewrite IH.
    destruct (applyAll g f m2) as [m2' e].
    rewrite <- app_assoc. reflexivity.
  - specialize (IH (m1 ++ [r])).
    rewrite length_app, Nat.add_comm in IH. simpl in IH.
    rewrite <- app_assoc in IH. simpl in IH. rewrite IH.
    destruct (applyAll g f m2) as [m2' e].
    rewrite <- app_assoc. reflexivity.
Qed.

Lemma applyAll_success g f : forall m m',
  applyAll g f m = (m', None) ->
  m' = map (fun r => if f r then fst (g r) else r) m
  /\ (forall r, In r m -> f r = true -> snd (g r) = None).
Proof.
  induction m as [|r m IH]; intros m' H; simpl in H.
  - inversion H. split; [reflexivity|]. intros r [].
  - destruct (f r) eqn:Hf.
    + destruct (g r) as [r' [e|]] eqn:Hg; [discriminate|].
      destruct (applyAll g f m) as [m'' e'] eqn:Ha.
      inversion H; subst. destruct (IH m'' eq_refl) as [E S].
      split.
      * simpl. rewrite Hf, Hg, <- E. reflexivity.
      * intros x [<-|Hx] Hfx; [rewrite Hg; reflexivity|auto].
    + destruct (applyAll g f m) as [m'' e'] eqn:Ha.
      inversion H; subst. destruct (IH m'' eq_refl) as [E S].
      split.
      * simpl. rewrite Hf, <- E. reflexivity.
      * intros x [<-|Hx] Hfx; [congruence|auto].
Qed.

End Loops.

(** ** Transformation by the single-patch plugin *)

Module TransformFacts.
Import PatchTransformer.

Section WithCollaborators.
Context {C : Collaborators}.

(** C5.  A plugin whose patch is a JSON patch and that has no target fails
    on every collection with the missing-target error, a ConfigError, and
    leaves the collection as it was. *)
Theorem Transform_json_patch_requires_target p m :
  kindOfPatch p = JSONPatchOps ->
  Target p = None ->
  Transform p m = (m, Some (ErrMustSpecifyTarget (Patch p)))
  /\ kindOf (ErrMustSpecifyTarget (Patch p)) = ConfigError.
Proof.
  unfold kindOfPatch, Transform, transformJson6902. intros Hk Ht.
  destruct (loadedPatch p); [discriminate|]. rewrite Ht.
  split; reflexivity.
Qed.

(** The copy made for a resource has the identity of the resource and the
    body of the patch. *)
Lemma patchCopyFor_identity patch r :
  resource.GetName (patchCopyFor patch r) = resource.GetName r
  /\ resource.GetNamespace (patchCopyFor patch r) = resource.GetNamespace r
  /\ resource.GetGvk (patchCopyFor patch r) = resource.GetGvk r
  /\ resource.Map (patchCopyFor patch r) = resource.Map patch.
Proof. repeat split. Qed.

Lemma transformStrategicMerge_selected p m patch sel :
  Target p = Some sel ->
  selectorError sel = None ->
  transformStrategicMerge p m patch
  = applyAll (fun r => applySMPatch p r (patchCopyFor patch r))
      (selectorMatches sel) m.
Proof.
  intros Ht Hs. unfold transformStrategicMerge, Select. rewrite Ht, Hs.
  pose proof (forEach_positions
                (fun r => applySMPatch p r (patchCopyFor patch r))
                (selectorMatches sel) m []) as H.
  simpl in H. rewrite H.
  destruct (applyAll _ _ m); reflexivity.
Qed.

(** C3.  When a strategic-merge patch is applied through a target selector
    and the pass succeeds, every resource the selector matches is replaced
    by the result of applying to it a copy of the patch that carries the
    resource's own name, namespace and group/version/kind and the patch's
    body; the result for a resource depends on that resource and the patch
    only, and the other resources are left as they were. *)
Theorem Transform_stamps_target_identity p m patch sel m' :
  loadedPatch p = Some patch ->
  Target p = Some sel ->
  Transform p m = (m', None) ->
  m' = map (fun r =>
              if selectorMatches sel r
              then fst (applySMPatch p r (patchCopyFor patch r))
              else r) m
  /\ (forall r,
        resource.GetName (patchCopyFor patch r) = resource.GetName r
        /\ resource.GetNamespace (patchCopyFor patch r) = resource.GetNamespace r
        /\ resource.GetGvk (patchCopyFor patch r) = resource.GetGvk r
        /\ resource.Map (patchCopyFor patch r) = resource.Map patch).
Proof.
  intros Hl Ht H. unfold Transform in H. rewrite Hl in H.
  split; [|intros r; apply patchCopyFor_identity].
  destruct (selectorError sel) as [e|] eqn:Hs.
  - unfold transformStrategicMerge, Select in H. rewrite Ht, Hs in H.
    discriminate.
  - rewrite (transformStrategicMerge_selected p m patch sel Ht Hs) in H.
    apply (applyAll_success _ _ _ _ H).
Qed.

(** The single-patch plugin never changes the number of resources when it
    applies a strategic-merge patch, whatever the patch leaves of its
    target. *)
Lemma transformStrategicMerge_length p m patch :
  List.length (fst (transformStrategicMerge p m patch)) = List.length m.
Proof.
  unfold transformStrategicMerge.
  destruct (Target p) as [sel|].
  - destruct (Select sel m) as [resources [e|]]; [reflexivity|].
    apply forEach_length. intros i m0. apply mutateAt_length.
  - destruct (resmap.GetById _ m); [|reflexivity].
    apply mutateAt_length.
Qed.

(** The legacy branch of [applyJson6902Patch] writes to the resource only
    after the patch has applied: when [Apply] fails the resource is the
    one that was given. *)
Lemma applyJson6902Patch_legacy_atomic p res patch rawObj out err :
  YAMLSupport p = false ->
  resource_MarshalJSON res = (rawObj, None) ->
  jsonpatch_Apply patch rawObj = (out, Some err) ->
  applyJson6902Patch p res patch
  = (res, Some (ErrFailedToApplyJsonPatch err (Patch p))).
Proof.
  intros Hy Hm Ha. unfold applyJson6902Patch. rewrite Hy, Hm, Ha. reflexivity.
Qed.

End WithCollaborators.

#[local] Existing Instance sample.collaborators.

(** A JSON patch without a target, on a collection of one deployment. *)
Lemma Transform_json_patch_requires_target_witness :
  Transform (mkPlugin None (Some sample.testOps) "" "[...]" None true)
    [sample.deployment "web" [("x", VNum 1)]]
  = ([sample.deployment "web" [("x", VNum 1)]],
     Some (ErrMustSpecifyTarget "[...]")).
Proof.
  refine (proj1 (Transform_json_patch_requires_target
                   (mkPlugin None (Some sample.testOps) "" "[...]" None true)
                   [sample.deployment "web" [("x", VNum 1)]] _ _)).
  - reflexivity.
  - reflexivity.
Defined.

(** One patch body sent to the two deployments of a collection. *)
Lemma Transform_stamps_target_identity_witness :
  [sample.deployment "web" [("a", VNum 1); ("b", VNum 2)];
   sample.deployment "db" [("b", VNum 2)]]
  = map (fun r =>
           if selectorMatches (sample.anyKind "Deployment") r
           then fst (applySMPatch
                       (mkPlugin (Some (sample.deployment "any" [("b", VNum 2)]))
                          None "" "{b: 2}" (Some (sample.anyKind "Deployment")) true)
                       r
                       (patchCopyFor (sample.deployment "any" [("b", VNum 2)]) r))
           else r)
        [sample.deployment "web" [("a", VNum 1)]; sample.deployment "db" []].
Proof.
  refine (proj1 (Transform_stamps_target_identity
                   (mkPlugin (Some (sample.deployment "any" [("b", VNum 2)]))
                      None "" "{b: 2}" (Some (sample.anyKind "Deployment")) true)
                   [sample.deployment "web" [("a", VNum 1)];
                    sample.deployment "db" []]
                   (sample.deployment "any" [("b", VNum 2)])
                   (sample.anyKind "Deployment") _ _ _ _)).
  - reflexivity.
  - reflexivity.
  - reflexivity.
Defined.

End TransformFacts.

(** ** The multi-patch plugin *)

Module StrategicMergeFacts.
Import PatchStrategicMergeTransformer.

Section WithCollaborators.
Context {C : Collaborators} {Y : Yaml}.

Lemma loadPaths_YAMLSupport hp : forall paths p,
  YAMLSupport (fst (loadPaths hp paths p)) = YAMLSupport p.
Proof.
  induction paths as [|onePath rest IH]; intros p; [reflexivity|].
  simpl. destruct (RF_SliceFromBytes hp onePath) as [res [e|]].
  - destruct (RF_SliceFromPatches hp [onePath]) as [res' [e'|]];
      [reflexivity|].
    rewrite IH. reflexivity.
  - rewrite IH. reflexivity.
Qed.

Lemma Config_YAMLSupport_multi hp c p0 p1 :
  yaml_Unmarshal c (setH (Some hp) p0) = (p1, None) ->
  YAMLSupport (fst (Config hp c p0))
  = if strings.Contains c "yamlSupport" then YAMLSupport p1 else true.
Proof.
  intros Hu. unfold Config. rewrite Hu.
  set (q := if negb (strings.Contains c "yamlSupport")
            then setYAMLSupport true p1 else p1).
  assert (Hq : YAMLSupport q
               = if strings.Contains c "yamlSupport" then YAMLSupport p1 else true).
  { unfold q. destruct (strings.Contains c "yamlSupport"); reflexivity. }
  rewrite <- Hq. clear Hq.
  destruct (_ && _); [reflexivity|].
  pose proof (loadPaths_YAMLSupport hp (Paths q) q) as Hl.
  destruct (loadPaths hp (Paths q) q) as [q1 [e|]]; simpl in Hl;
    [exact Hl|].
  rewrite <- Hl.
  destruct (negb (String.eqb (Patches q1) "")).
  - destruct (RF_SliceFromBytes hp (Patches q1)) as [res [e|]];
      [reflexivity|].
    cbn [fst]. destruct (Nat.eqb _ 0); reflexivity.
  - destruct (Nat.eqb _ 0); reflexivity.
Qed.

(** In the multi-patch shape [Config] fails when there is neither a path
    nor inline content. *)
Lemma Config_requires_content hp c p0 p1 :
  yaml_Unmarshal c (setH (Some hp) p0) = (p1, None) ->
  Paths p1 = [] -> Patches p1 = "" ->
  snd (Config hp c p0) = Some ErrEmptyPathAndPatch.
Proof.
  intros Hu Hp Hq. unfold Config. rewrite Hu.
  destruct (negb (strings.Contains c "yamlSupport")); simpl;
    rewrite Hp, Hq; reflexivity.
Qed.

Lemma applyPatch_legacy p target patch :
  YAMLSupport p = false ->
  applyPatch p target patch = inl (resource_Patch target (resource.Copy patch)).
Proof. intros Hy. unfold applyPatch. rewrite Hy. reflexivity. Qed.

(** In the kyaml branch whatever error [ApplyToJSON] returns is lost: the
    loop goes on with no error. *)
Lemma applyPatch_kyaml_drops_error p target patch node :
  YAMLSupport p = true ->
  filtersutil_GetRNode (patchCopyFor patch target) = (node, None) ->
  applyPatch p target patch
  = inl (fst (filtersutil_ApplyToJSON (PatchStrategicMergeFilter node) target),
         None).
Proof.
  intros Hy Hn. unfold applyPatch. rewrite Hy, Hn. simpl.
  destruct (filtersutil_ApplyToJSON _ target); reflexivity.
Qed.

Lemma ResId_eqb_refl id : ResId_eqb id id = true.
Proof.
  unfold ResId_eqb, Gvk_eqb. rewrite !String.eqb_refl. reflexivity.
Qed.

Lemma filter_all {A : Type} (f : A -> bool) (l : list A) :
  List.length (filter f l) = List.length l -> filter f l = l.
Proof.
  induction l as [|x l IH]; [reflexivity|]. simpl.
  destruct (f x); simpl; intros H.
  - f_equal. apply IH. lia.
  - pose proof (filter_length_le f l). lia.
Qed.

Lemma firstn_middle {A : Type} (a : list A) x b :
  firstn (List.length a) (a ++ x :: b) = a.
Proof. induction a; simpl; [reflexivity|]. rewrite IHa. reflexivity. Qed.

Lemma skipn_middle {A : Type} (a : list A) x b :
  skipn (S (List.length a)) (a ++ x :: b) = b.
Proof. induction a; simpl; [reflexivity|]. exact IHa. Qed.

(** The loop body of [Transform] removes a target that its patch has
    emptied: the collection loses that position and nothing else. *)
Lemma transformOne_removes_emptied p patch m i target target' m' :
  resmap.GetById (resource.OrgId patch) m = Ok i ->
  nth_error m i = Some target ->
  applyPatch p target patch = inl (target', None) ->
  resource.Map target' = [] ->
  transformOne p patch m = (m', None) ->
  m' = firstn i m ++ skipn (S i) m
  /\ S (List.length m') = List.length m
  /\ (forall r, In r m' ->
        ResId_eqb (resource.CurId r) (resource.CurId target') = false).
Proof.
  intros Hg Hn Ha He H. unfold transformOne in H.
  rewrite Hg, Hn, Ha, He in H. simpl in H.
  unfold resmap.Remove in H.
  set (keep := fun r => negb (ResId_eqb (resource.CurId r) (resource.CurId target'))) in *.
  destruct (Nat.eqb _ _) eqn:Hlen; [|discriminate].
  inversion H; subst m'; clear H.
  apply Nat.eqb_eq in Hlen. rewrite replaceAt_length in Hlen.
  destruct (nth_error_split m i Hn) as (a & b & -> & <-).
  rewrite firstn_middle, skipn_middle.
  rewrite replaceAt_middle in *.
  rewrite filter_app in *. simpl in *.
  assert (Hk : keep target' = false).
  { unfold keep. rewrite ResId_eqb_refl. reflexivity. }
  rewrite Hk in *.
  rewrite !length_app in Hlen. simpl in Hlen.
  pose proof (filter_length_le keep a). pose proof (filter_length_le keep b).
  assert (Ea : filter keep a = a) by (apply filter_all; lia).
  assert (Eb : filter keep b = b) by (apply filter_all; lia).
  rewrite Ea, Eb.
  split; [|split].
  - reflexivity.
  - rewrite !length_app. simpl. lia.
  - intros r Hr. rewrite <- Ea, <- Eb in Hr.
    rewrite <- filter_app in Hr. apply filter_In in Hr.
    destruct Hr as [_ Hr]. unfold keep in Hr.
    apply negb_true_iff in Hr. exact Hr.
Qed.

End WithCollaborators.

End StrategicMergeFacts.

(** ** The default of the yamlSupport flag *)

Section YamlSupport.
Context {C : Collaborators}.
Context {Y1 : PatchTransformer.Yaml} {Y2 : PatchStrategicMergeTransformer.Yaml}.

(** C9.  In both plugins [Config] turns the kyaml strategy on exactly when
    the configuration bytes do not contain [yamlSupport]; when they do,
    wherever in the configuration, the flag is left as the decoding of the
    configuration set it. *)
Theorem yamlSupport_default_by_substring :
  (forall h c p0 p1,
     PatchTransformer.yaml_Unmarshal c p0 = (p1, None) ->
     PatchTransformer.YAMLSupport (fst (PatchTransformer.Config h c p0))
     = if strings.Contains c "yamlSupport"
       then PatchTransformer.YAMLSupport p1 else true)
  /\ (forall hp c p0 p1,
     PatchStrategicMergeTransformer.yaml_Unmarshal c
       (PatchStrategicMergeTransformer.setH (Some hp) p0) = (p1, None) ->
     PatchStrategicMergeTransformer.YAMLSupport
       (fst (PatchStrategicMergeTransformer.Config hp c p0))
     = if strings.Contains c "yamlSupport"
       then PatchStrategicMergeTransformer.YAMLSupport p1 else true).
Proof.
  split.
  - apply ConfigFacts.Config_YAMLSupport.
  - apply StrategicMergeFacts.Config_YAMLSupport_multi.
Qed.

End YamlSupport.

(** A patch whose content mentions [yamlSupport] leaves the legacy strategy
    selected, although the configuration does not set the flag. *)
Lemma yamlSupport_default_by_substring_witness :
  PatchTransformer.YAMLSupport
    (fst (PatchTransformer.Config (C := sample.collaborators) (Y := sample.yaml)
            sample.helpers "patch: '{yamlSupport: 1}'"
            PatchTransformer.KustomizePlugin))
  = false.
Proof.
  refine (proj1 (yamlSupport_default_by_substring
                   (C := sample.collaborators) (Y1 := sample.yaml)
                   (Y2 := sample.yamlSM))
            sample.helpers "patch: '{yamlSupport: 1}'"
            PatchTransformer.KustomizePlugin
            (PatchTransformer.mkPlugin None None "" "{yamlSupport: 1}" None false)
            _).
  reflexivity.
Defined.

(** ** Where the two plugins part ways *)

(** C2.  A strategic-merge patch that removes every field of the deployment
    [web] is applied by the single-patch plugin, under either strategy:
    the emptied [web] is still in the collection and the collection still
    has two resources.  The multi-patch plugin, given the same patch and
    collection, removes [web]. *)
Theorem emptied_target_is_not_removed :
  PatchTransformer.Transform (C := sample.collaborators)
    (PatchTransformer.mkPlugin (Some sample.emptyWeb) None "" "{a: null}" None false)
    [sample.web; sample.db]
  = ([sample.deployment "web" []; sample.db], None)
  /\ PatchTransformer.Transform (C := sample.collaborators)
    (PatchTransformer.mkPlugin (Some sample.emptyWeb) None "" "{a: null}" None true)
    [sample.web; sample.db]
  = ([sample.deployment "web" []; sample.db], None)
  /\ PatchStrategicMergeTransformer.Transform (C := sample.collaborators)
    (PatchStrategicMergeTransformer.mkPlugin (Some sample.helpers)
       [sample.emptyWeb] [] "{a: null}" false)
    [sample.web; sample.db]
  = ([sample.db], None).
Proof. split; [reflexivity|]. split; reflexivity. Qed.

(** C7.  With collaborators whose two strategies both refuse the patch
    [bogusWeb] with the same error and leave its target alone, the
    multi-patch plugin ends differently under the two strategies: under the
    legacy one the pass stops with that error before the next patch, under
    the kyaml one the error is lost, the pass applies the next patch to
    [db] and reports success. *)
Theorem strategies_differ_on_a_failing_patch :
  resource_Patch (Collaborators := sample.strictCollaborators)
    sample.web (resource.Copy sample.bogusWeb)
  = (sample.web, Some sample.badPatchType)
  /\ filtersutil_ApplyToJSON (Collaborators := sample.strictCollaborators)
       (PatchStrategicMergeFilter
          (fst (filtersutil_GetRNode (Collaborators := sample.strictCollaborators)
                  (PatchStrategicMergeTransformer.patchCopyFor
                     sample.bogusWeb sample.web))))
       sample.web
     = (sample.web, Some sample.badPatchType)
  /\ PatchStrategicMergeTransformer.Transform (C := sample.strictCollaborators)
       (PatchStrategicMergeTransformer.mkPlugin (Some sample.helpers)
          [sample.bogusWeb; sample.extendDb] [] "" false)
       [sample.web; sample.db]
     = ([sample.web; sample.db], Some sample.badPatchType)
  /\ PatchStrategicMergeTransformer.Transform (C := sample.strictCollaborators)
       (PatchStrategicMergeTransformer.mkPlugin (Some sample.helpers)
          [sample.bogusWeb; sample.extendDb] [] "" true)
       [sample.web; sample.db]
     = ([sample.web;
         sample.deployment "db" [("b", VNum 2); ("c", VNum 3)]], None).
Proof.
  split; [reflexivity|]. split; [reflexivity|]. split; reflexivity.
Qed.

(** ** JSON patches are applied atomically *)

Module JsonPatchFacts.
Import rfc6902.

(** A rewrite of the last container that gives up when the child is
    missing gives up on every path that is missing. *)
Lemma alterAt_missing (f : string -> Value -> option Value) :
  (forall tok doc, getAt [tok] doc = None -> f tok doc = None) ->
  forall path doc, getAt path doc = None -> alterAt path f doc = None.
Proof.
  intros Hf. induction path as [|tok rest IH]; intros doc H.
  - discriminate.
  - destruct rest as [|tok' rest]; [apply Hf; exact H|].
    remember (tok' :: rest) as path eqn:Hp.
    simpl in *. rewrite Hp at 1.
    destruct doc as [| | | |l|m]; try reflexivity.
    + destruct (parseIndex tok) as [i|]; [|reflexivity].
      destruct (nth_error l i) as [v|]; [|reflexivity].
      rewrite (IH v H). reflexivity.
    + destruct (lookup tok m) as [v|]; [|reflexivity].
      rewrite (IH v H). reflexivity.
Qed.

Lemma removeChild_missing tok doc :
  getAt [tok] doc = None -> removeChild tok doc = None.
Proof.
  destruct doc as [| | | |l|m]; simpl; try reflexivity.
  - destruct (parseIndex tok) as [i|]; [|reflexivity].
    destruct (nth_error l i) as [v|] eqn:Hn; [discriminate|].
    intros _. apply nth_error_None in Hn.
    destruct (Nat.ltb_spec i (List.length l)); [lia|reflexivity].
  - destruct (lookup tok m); [discriminate|reflexivity].
Qed.

Lemma replaceChild_missing v tok doc :
  getAt [tok] doc = None -> replaceChild v tok doc = None.
Proof.
  destruct doc as [| | | |l|m]; simpl; try reflexivity.
  - destruct (parseIndex tok) as [i|]; [|reflexivity].
    destruct (nth_error l i) as [x|] eqn:Hn; [discriminate|].
    intros _. apply nth_error_None in Hn.
    destruct (Nat.ltb_spec i (List.length l)); [lia|reflexivity].
  - destruct (lookup tok m); [discriminate|reflexivity].
Qed.

(** An operation whose precondition fails is an ApplyError. *)
Lemma applyOp_precondition op doc :
  preconditionFails op doc ->
  exists msg, applyOp op doc = Err (ErrFrom ApplyError msg).
Proof.
  destruct op as [path v|path|path v|from path|from path|path v];
    simpl; intros H.
  - contradiction.
  - rewrite (alterAt_missing _ removeChild_missing path doc H).
    eexists; reflexivity.
  - destruct path as [|tok rest]; [discriminate|].
    rewrite (alterAt_missing _ (replaceChild_missing v) _ doc H).
    eexists; reflexivity.
  - rewrite H. eexists; reflexivity.
  - rewrite H. eexists; reflexivity.
  - destruct H as (v' & Hg & Hne). rewrite Hg, Hne. eexists; reflexivity.
Qed.

(** The operations before the failing one may all succeed: the sequence
    fails all the same. *)
Lemma applyOps_precondition op post : forall pre doc doc',
  applyOps pre doc = Ok doc' ->
  preconditionFails op doc' ->
  exists msg, applyOps (pre ++ op :: post) doc = Err (ErrFrom ApplyError msg).
Proof.
  induction pre as [|o pre IH]; intros doc doc' Hpre Hop; simpl in *.
  - inversion Hpre; subst.
    destruct (applyOp_precondition op doc' Hop) as [msg ->].
    exists msg; reflexivity.
  - destruct (applyOp o doc) as [d|e]; [|discriminate].
    exact (IH d doc' Hpre Hop).
Qed.

(** Removing [/spec/replicas] removes that field and leaves its siblings. *)
Example remove_replicas :
  applyOps [OpRemove ["spec"; "replicas"]]
    (VMap [("kind", VStr "Deployment");
           ("spec", VMap [("replicas", VNum 3); ("paused", VBool false)])])
  = Ok (VMap [("kind", VStr "Deployment");
              ("spec", VMap [("paused", VBool false)])]).
Proof. reflexivity. Qed.

Section WithCodec.
Variable mergeKey : string.
Variable codec : Codec.

(** C4.  Let the operations of a JSON patch be [pre ++ op :: post], [pre]
    applying to the resource's field-tree and the precondition of [op]
    failing on the result (a missing path for remove or replace, a missing
    source for move or copy, a different value for test).  Then
    [applyJson6902Patch] returns an ApplyError, and the resource it
    returns is the one it was given.  The kyaml strategy decodes the
    plugin's patch text itself, so there the operations are those the
    text decodes to. *)
Theorem applyJson6902Patch_is_atomic p res patch pre op post doc' :
  (PatchTransformer.YAMLSupport p = true ->
     specmodel.decodePatch codec (PatchTransformer.Patch p) = (patch, None)) ->
  opsOf patch = pre ++ op :: post ->
  applyOps pre (VMap (rMap res)) = Ok doc' ->
  preconditionFails op doc' ->
  exists e,
    PatchTransformer.applyJson6902Patch
      (C := specmodel.collaborators mergeKey codec) p res patch
    = (res, Some e)
    /\ kindOf e = ApplyError.
Proof.
  intros Hdec Hops Hpre Hop.
  destruct (applyOps_precondition op post pre _ _ Hpre Hop) as [msg Hfail].
  rewrite <- Hops in Hfail.
  unfold PatchTransformer.applyJson6902Patch.
  destruct (PatchTransformer.YAMLSupport p) eqn:Hy; simpl.
  - rewrite (Hdec eq_refl), Hfail.
    exists (ErrFrom ApplyError msg). split; reflexivity.
  - rewrite Hfail.
    exists (ErrFailedToApplyJsonPatch (ErrFrom ApplyError msg)
              (PatchTransformer.Patch p)).
    split; reflexivity.
Qed.

End WithCodec.

(** Removing [/spec/replicas] from a deployment that has no [spec]. *)
Lemma applyJson6902Patch_is_atomic_witness :
  exists e,
    PatchTransformer.applyJson6902Patch (C := sample.collaborators)
      (PatchTransformer.mkPlugin None (Some [OpRemove ["spec"; "replicas"]]) ""
         "[{op: remove, path: /spec/replicas}]" None true)
      sample.web (Some [OpRemove ["spec"; "replicas"]])
    = (sample.web, Some e)
    /\ kindOf e = ApplyError.
Proof.
  refine (applyJson6902Patch_is_atomic "name" sample.codec
            (PatchTransformer.mkPlugin None (Some [OpRemove ["spec"; "replicas"]]) ""
               "[{op: remove, path: /spec/replicas}]" None true)
            sample.web (Some [OpRemove ["spec"; "replicas"]])
            [] (OpRemove ["spec"; "replicas"]) [] (VMap (rMap sample.web))
            _ _ _ _).
  - intros _. reflexivity.
  - reflexivity.
  - reflexivity.
  - reflexivity.
Defined.

End JsonPatchFacts.

(* ================================================================= *)
(** * Part III: further properties of the two plugins *)
(* ================================================================= *)

(** ** More on the configuration of the single-patch plugin *)

Module ConfigMore.
Import PatchTransformer.

Lemma trimWith_spaces : forall l fuel,
  forallb strings.asciiSpace l = true -> List.length l <= fuel ->
  strings.trimWith strings.spaceRuneLen fuel l = [].
Proof.
  induction l as [|b l IH]; intros fuel Hs Hf.
  - destruct fuel; reflexivity.
  - simpl in Hs. apply andb_true_iff in Hs. destruct Hs as [Hb Hl].
    destruct fuel as [|fuel]; [simpl in Hf; lia|].
    simpl. rewrite Hb. simpl. apply IH; [exact Hl|simpl in Hf; lia].
Qed.

Lemma TrimSpace_spaces s : onlyAsciiSpace s = true -> strings.TrimSpace s = "".
Proof.
  unfold onlyAsciiSpace, strings.TrimSpace. intros H.
  rewrite (trimWith_spaces _ _ H (le_n _)). reflexivity.
Qed.

Section WithCollaborators.
Context {C : Collaborators} {Y : Yaml}.

Lemma classify_Target h p : Target (fst (classify h p)) = Target p.
Proof.
  unfold classify.
  destruct (RF_FromBytes h (Patch p)) as [patchSM errSM].
  destruct (jsonPatchFromBytes (Patch p)) as [patchJson errJson].
  destruct (_ || _); [reflexivity|].
  destruct (_ && _); [reflexivity|].
  destruct (isNil errSM); reflexivity.
Qed.

Lemma decoded_Target c p : Target (decoded c p) = Target p.
Proof. unfold decoded. destruct (negb _); reflexivity. Qed.

Lemma decoded_decodedPatch c p : decodedPatch (decoded c p) = decodedPatch p.
Proof. unfold decoded. destruct (negb _); reflexivity. Qed.

(** [Config] never writes the target: it is what the decoding left. *)
Lemma Config_Target h c p0 p1 :
  yaml_Unmarshal c p0 = (p1, None) ->
  Target (fst (Config h c p0)) = Target p1.
Proof.
  intros Hu. rewrite <- (decoded_Target c p1).
  rewrite (ConfigFacts.Config_afterDecoding h c p0 p1 Hu). unfold afterDecoding.
  destruct (_ && _); [reflexivity|].
  destruct (_ && _); [reflexivity|].
  destruct (negb _).
  - destruct (Loader_Load h (Path (decoded c p1))) as [loaded [e|]];
      [reflexivity|].
    rewrite classify_Target. reflexivity.
  - apply classify_Target.
Qed.

(** An inline patch of ASCII white space only counts as no inline patch:
    without a path [Config] fails for want of a patch, and with a path it
    goes on to classify what the loader returns for the path. *)
Theorem Config_blank_patch_is_no_patch h c p0 p1 :
  yaml_Unmarshal c p0 = (p1, None) ->
  onlyAsciiSpace (Patch p1) = true ->
  (Path p1 = "" ->
     snd (Config h c p0) = Some (ErrMustSpecifyPatchOrPath c))
  /\ (forall loaded,
        Path p1 <> "" -> Loader_Load h (Path p1) = (loaded, None) ->
        Config h c p0 = classify h (setPatch (stringOf loaded) (decoded c p1))).
Proof.
  intros Hu Hs. pose proof (TrimSpace_spaces _ Hs) as Ht. split.
  - intros Hp.
    rewrite (ConfigFacts.Config_afterDecoding h c p0 p1 Hu).
    unfold afterDecoding.
    rewrite ConfigFacts.decoded_Patch, ConfigFacts.decoded_Path, Ht, Hp.
    reflexivity.
  - intros loaded Hp Hl.
    apply (ConfigFacts.Config_reaches_classify h c p0 p1 _ Hu).
    apply loadedContent; assumption.
Qed.

(** When the loader fails for the path, [Config] returns the loader's
    error, whatever bytes came with it, and stores no patch of either
    kind. *)
Theorem Config_load_failure h c p0 p1 loaded e :
  yaml_Unmarshal c p0 = (p1, None) ->
  strings.TrimSpace (Patch p1) = "" -> Path p1 <> "" ->
  Loader_Load h (Path p1) = (loaded, Some e) ->
  snd (Config h c p0) = Some e
  /\ loadedPatch (fst (Config h c p0)) = loadedPatch p1
  /\ decodedPatch (fst (Config h c p0)) = decodedPatch p1.
Proof.
  intros Hu Ht Hp Hl.
  rewrite (ConfigFacts.Config_afterDecoding h c p0 p1 Hu).
  unfold afterDecoding.
  rewrite ConfigFacts.decoded_Patch, ConfigFacts.decoded_Path, Ht.
  rewrite (ConfigFacts.eqb_empty_false _ Hp).
  cbn [String.eqb andb negb]. rewrite Hl. cbn [fst snd].
  rewrite ConfigFacts.decoded_loadedPatch, decoded_decodedPatch.
  split; [reflexivity|]. split; reflexivity.
Qed.

(** What a successful classification leaves in the plugin. *)
Lemma classify_success h p p' :
  classify h p = (p', None) ->
  Patch p' = Patch p
  /\ ((snd (RF_FromBytes h (Patch p)) = None
       /\ loadedPatch p' = fst (RF_FromBytes h (Patch p))
       /\ decodedPatch p' = decodedPatch p)
      \/ (snd (RF_FromBytes h (Patch p)) <> None
          /\ jsonPatchFromBytes (Patch p) = (decodedPatch p', None)
          /\ loadedPatch p' = loadedPatch p)).
Proof.
  unfold classify.
  destruct (RF_FromBytes h (Patch p)) as [patchSM errSM].
  destruct (jsonPatchFromBytes (Patch p)) as [patchJson errJson].
  destruct (_ || _); [discriminate|].
  destruct (negb (isNil errSM) && negb (isNil errJson)) eqn:Hn; [discriminate|].
  destruct errSM as [e|]; simpl in *.
  - destruct errJson; [discriminate|].
    intros H; inversion H; subst. split; [reflexivity|].
    right. split; [discriminate|]. split; reflexivity.
  - intros H; inversion H; subst. split; [reflexivity|].
    left. split; [reflexivity|]. split; reflexivity.
Qed.

(** After a successful [Config] the plugin's [Patch] is the content that
    was classified, the trimmed inline text or the loaded bytes, and
    exactly one of the two patch fields was written: the resource parsed
    from that content, or the operations [jsonPatchFromBytes] decodes from
    it.  So the text that the kyaml branch of [applyJson6902Patch] hands
    to its filter is the text [decodedPatch] was decoded from. *)
Theorem Config_stores_what_it_classified h c p0 p1 p :
  yaml_Unmarshal c p0 = (p1, None) ->
  Config h c p0 = (p, None) ->
  exists content,
    suppliedContent h p1 content
    /\ Patch p = content
    /\ ((snd (RF_FromBytes h content) = None
         /\ loadedPatch p = fst (RF_FromBytes h content)
         /\ decodedPatch p = decodedPatch p1)
        \/ (snd (RF_FromBytes h content) <> None
            /\ jsonPatchFromBytes content = (decodedPatch p, None)
            /\ loadedPatch p = loadedPatch p1)).
Proof.
  intros Hu Hc.
  assert (Hs : exists content, suppliedContent h p1 content).
  { rewrite (ConfigFacts.Config_afterDecoding h c p0 p1 Hu) in Hc.
    unfold afterDecoding in Hc.
    rewrite ConfigFacts.decoded_Patch, ConfigFacts.decoded_Path in Hc.
    destruct (String.eqb_spec (strings.TrimSpace (Patch p1)) "") as [Hp|Hp];
      destruct (String.eqb_spec (Path p1) "") as [Hq|Hq]; simpl in Hc;
      try discriminate.
    - destruct (Loader_Load h (Path p1)) as [loaded [e|]] eqn:Hl;
        [discriminate|].
      exists (stringOf loaded). apply loadedContent; assumption.
    - exists (strings.TrimSpace (Patch p1)). apply inlineContent; assumption. }
  destruct Hs as [content Hs]. exists content. split; [exact Hs|].
  rewrite (ConfigFacts.Config_reaches_classify h c p0 p1 content Hu Hs) in Hc.
  destruct (classify_success _ _ _ Hc) as [HP HK].
  change (Patch (setPatch content (decoded c p1))) with content in *.
  change (loadedPatch (setPatch content (decoded c p1)))
    with (loadedPatch (decoded c p1)) in HK.
  change (decodedPatch (setPatch content (decoded c p1)))
    with (decodedPatch (decoded c p1)) in HK.
  rewrite ConfigFacts.decoded_loadedPatch, decoded_decodedPatch in HK.
  split; assumption.
Qed.

(** [Config] does not look at the target.  A configuration that it takes
    for a JSON patch and that names no target is accepted, and every
    [Transform] of the configured plugin then fails for want of a target,
    the collection left as it was. *)
Theorem Config_accepts_json_patch_without_target h c p0 p1 p :
  yaml_Unmarshal c p0 = (p1, None) ->
  Target p1 = None ->
  Config h c p0 = (p, None) ->
  kindOfPatch p = JSONPatchOps ->
  forall m, Transform p m = (m, Some (ErrMustSpecifyTarget (Patch p))).
Proof.
  intros Hu Ht Hc Hk m.
  pose proof (Config_Target h c p0 p1 Hu) as HT. rewrite Hc, Ht in HT.
  simpl in HT. unfold kindOfPatch in Hk.
  unfold Transform, transformJson6902.
  destruct (loadedPatch p); [discriminate|]. rewrite HT. reflexivity.
Qed.

(** [jsonPatchFromBytes] never returns a patch next to an error, as long
    as the decoder does not. *)
Theorem jsonPatchFromBytes_no_patch_with_error :
  (forall s, snd (jsonpatch_DecodePatch s) <> None ->
             fst (jsonpatch_DecodePatch s) = None) ->
  forall s, snd (jsonPatchFromBytes s) <> None ->
            fst (jsonPatchFromBytes s) = None.
Proof.
  intros Hd s. unfold jsonPatchFromBytes.
  destruct (String.eqb s ""); [reflexivity|].
  destruct s as [|a s]; [apply Hd|].
  destruct (negb (Ascii.eqb a "[")); [|apply Hd].
  destruct (yaml_YAMLToJSON (String a s)) as [j [e'|]]; [reflexivity|].
  apply Hd.
Qed.

End WithCollaborators.

(** A patch of two blanks and no path. *)
Lemma Config_blank_patch_is_no_patch_witness :
  snd (Config (C := sample.collaborators) (Y := doubles.yamlOf "  " "" None)
         doubles.helpers "patch: '  '" KustomizePlugin)
  = Some (ErrMustSpecifyPatchOrPath "patch: '  '").
Proof.
  refine (proj1 (Config_blank_patch_is_no_patch
                   (C := sample.collaborators) (Y := doubles.yamlOf "  " "" None)
                   doubles.helpers "patch: '  '" KustomizePlugin
                   (mkPlugin None None "" "  " None false) _ _) _).
  - reflexivity.
  - reflexivity.
  - reflexivity.
Defined.

(** A path to a file that cannot be read. *)
Lemma Config_load_failure_witness :
  snd (Config (C := sample.collaborators)
         (Y := doubles.yamlOf "" "missing.yaml" None)
         doubles.helpers "path: missing.yaml" KustomizePlugin)
  = Some doubles.notFound
  /\ loadedPatch (fst (Config (C := sample.collaborators)
                         (Y := doubles.yamlOf "" "missing.yaml" None)
                         doubles.helpers "path: missing.yaml" KustomizePlugin))
     = None
  /\ decodedPatch (fst (Config (C := sample.collaborators)
                          (Y := doubles.yamlOf "" "missing.yaml" None)
                          doubles.helpers "path: missing.yaml" KustomizePlugin))
     = None.
Proof.
  refine (Config_load_failure
            (C := sample.collaborators)
            (Y := doubles.yamlOf "" "missing.yaml" None)
            doubles.helpers "path: missing.yaml" KustomizePlugin
            (mkPlugin None None "missing.yaml" "" None false)
            (Some "partial read") doubles.notFound _ _ _ _).
  - reflexivity.
  - reflexivity.
  - discriminate.
  - reflexivity.
Defined.

(** A path to a file that holds a JSON patch. *)
Lemma Config_stores_what_it_classified_witness :
  exists content,
    suppliedContent doubles.helpers
      (mkPlugin None None "patch.yaml" "" (Some (sample.anyKind "Deployment")) false)
      content
    /\ "[{op: test, path: /x, value: 1}]" = content
    /\ ((snd (RF_FromBytes doubles.helpers content) = None
         /\ @None Resource = fst (RF_FromBytes doubles.helpers content)
         /\ Some sample.testOps = None)
        \/ (snd (RF_FromBytes doubles.helpers content) <> None
            /\ jsonPatchFromBytes (C := sample.collaborators) content
               = (Some sample.testOps, None)
            /\ @None Resource = None)).
Proof.
  refine (Config_stores_what_it_classified
            (C := sample.collaborators)
            (Y := doubles.yamlOf "" "patch.yaml" (Some (sample.anyKind "Deployment")))
            doubles.helpers "path: patch.yaml" KustomizePlugin
            (mkPlugin None None "patch.yaml" "" (Some (sample.anyKind "Deployment")) false)
            (mkPlugin None (Some sample.testOps) "patch.yaml"
               "[{op: test, path: /x, value: 1}]"
               (Some (sample.anyKind "Deployment")) true)
            _ _).
  - reflexivity.
  - reflexivity.
Defined.

(** The same file, and no target. *)
Lemma Config_accepts_json_patch_without_target_witness :
  Transform (C := sample.collaborators)
    (mkPlugin None (Some sample.testOps) "patch.yaml"
       "[{op: test, path: /x, value: 1}]" None true)
    [sample.web]
  = ([sample.web],
     Some (ErrMustSpecifyTarget "[{op: test, path: /x, value: 1}]")).
Proof.
  refine (Config_accepts_json_patch_without_target
            (C := sample.collaborators)
            (Y := doubles.yamlOf "" "patch.yaml" None)
            doubles.helpers "path: patch.yaml" KustomizePlugin
            (mkPlugin None None "patch.yaml" "" None false)
            (mkPlugin None (Some sample.testOps) "patch.yaml"
               "[{op: test, path: /x, value: 1}]" None true)
            _ _ _ _ [sample.web]).
  - reflexivity.
  - reflexivity.
  - reflexivity.
  - reflexivity.
Defined.

(** Content that is neither JSON nor YAML for an operation array. *)
Lemma jsonPatchFromBytes_no_patch_with_error_witness :
  fst (jsonPatchFromBytes (C := sample.collaborators) "{a: 1}") = None.
Proof.
  refine (jsonPatchFromBytes_no_patch_with_error
            (C := sample.collaborators) _ "{a: 1}" _).
  - intros s. simpl.
    destruct (String.eqb s _); [intros H; exfalso; apply H; reflexivity|].
    destruct (String.eqb s _); [intros H; exfalso; apply H; reflexivity|].
    reflexivity.
  - simpl. discriminate.
Defined.

End ConfigMore.

(** ** More on the transformation by the single-patch plugin *)

Module TransformMore.
Import PatchTransformer.

Lemma positions_none (f : Resource -> bool) : forall m base,
  (forall r, In r m -> f r = false) -> positions f base m = [].
Proof.
  induction m as [|r m IH]; intros base H; [reflexivity|].
  simpl. rewrite (H r (or_introl eq_refl)).
  apply IH. intros x Hx. apply H. right. exact Hx.
Qed.

Lemma nth_error_replaceAt_other r : forall m i j,
  j <> i -> nth_error (replaceAt i r m) j = nth_error m j.
Proof.
  induction m as [|x m IH]; intros i j Hj.
  - destruct i; reflexivity.
  - destruct i as [|i]; destruct j as [|j]; simpl; try reflexivity.
    + congruence.
    + apply IH. congruence.
Qed.

Lemma mutateAt_other i g m j :
  j <> i -> nth_error (fst (mutateAt i g m)) j = nth_error m j.
Proof.
  intros Hj. unfold mutateAt.
  destruct (nth_error m i) as [r|]; [|reflexivity].
  destruct (g r) as [r' e]. simpl. apply nth_error_replaceAt_other. exact Hj.
Qed.

(** Where a loop over the selected resources fails: the resources before
    the failing one are as their applications left them, the failing one
    is as its application left it, the ones after it are untouched. *)
Lemma applyAll_failure g f : forall m m' e,
  applyAll g f m = (m', Some e) ->
  exists a r b,
    m = a ++ r :: b
    /\ f r = true
    /\ snd (g r) = Some e
    /\ (forall x, In x a -> f x = true -> snd (g x) = None)
    /\ m' = map (fun x => if f x then fst (g x) else x) a ++ fst (g r) :: b.
Proof.
  induction m as [|x m IH]; intros m' e H; simpl in H; [discriminate|].
  destruct (f x) eqn:Hf.
  - destruct (g x) as [x' [e'|]] eqn:Hg.
    + inversion H; subst. exists [], x, m. rewrite Hg.
      repeat split; try assumption. intros ? [].
    + destruct (applyAll g f m) as [m'' o] eqn:Ha.
      inversion H; subst.
      destruct (IH m'' e eq_refl) as (a & r & b & -> & Hr & Hgr & Hok & ->).
      exists (x :: a), r, b. simpl. rewrite Hf, Hg.
      repeat split; try assumption.
      intros y [<-|Hy] Hfy; [rewrite Hg; reflexivity|auto].
  - destruct (applyAll g f m) as [m'' o] eqn:Ha.
    inversion H; subst.
    destruct (IH m'' e eq_refl) as (a & r & b & -> & Hr & Hgr & Hok & ->).
    exists (x :: a), r, b. simpl. rewrite Hf.
    repeat split; try assumption.
    intros y [<-|Hy] Hfy; [congruence|auto].
Qed.

Section WithCollaborators.
Context {C : Collaborators}.

Lemma transformJson6902_selected p m patch sel :
  Target p = Some sel ->
  selectorError sel = None ->
  transformJson6902 p m patch
  = applyAll (fun r => applyJson6902Patch p r patch) (selectorMatches sel) m.
Proof.
  intros Ht Hs. unfold transformJson6902, Select. rewrite Ht, Hs.
  pose proof (forEach_positions
                (fun r => applyJson6902Patch p r patch)
                (selectorMatches sel) m []) as H.
  simpl in H. rewrite H.
  destruct (applyAll _ _ m); reflexivity.
Qed.

Lemma transformJson6902_length p m patch :
  List.length (fst (transformJson6902 p m patch)) = List.length m.
Proof.
  unfold transformJson6902.
  destruct (Target p) as [sel|]; [|reflexivity].
  destruct (Select sel m) as [resources [e|]]; [reflexivity|].
  apply forEach_length. intros i m0. apply mutateAt_length.
Qed.

(** [Transform] neither adds nor removes a resource, whatever the patch,
    the target and the outcome. *)
Theorem Transform_keeps_size p m :
  List.length (fst (Transform p m)) = List.length m.
Proof.
  unfold Transform. destruct (loadedPatch p) as [patch|].
  - apply TransformFacts.transformStrategicMerge_length.
  - apply transformJson6902_length.
Qed.

(** When a JSON patch is applied through a target selector and the pass
    succeeds, every resource the selector matches is replaced by the
    result of applying the patch to it, and the others are left as they
    were. *)
Theorem Transform_json_patch_fans_out p m sel m' :
  loadedPatch p = None ->
  Target p = Some sel ->
  Transform p m = (m', None) ->
  m' = map (fun r =>
              if selectorMatches sel r
              then fst (applyJson6902Patch p r (decodedPatch p))
              else r) m
  /\ (forall r, In r m -> selectorMatches sel r = true ->
        snd (applyJson6902Patch p r (decodedPatch p)) = None).
Proof.
  intros Hl Ht H. unfold Transform in H. rewrite Hl in H.
  destruct (selectorError sel) as [e|] eqn:Hs.
  - unfold transformJson6902, Select in H. rewrite Ht, Hs in H. discriminate.
  - rewrite (transformJson6902_selected p m _ sel Ht Hs) in H.
    apply (applyAll_success _ _ _ _ H).
Qed.

(** When the application of a strategic-merge patch fails on a selected
    resource, [Transform] returns that error at once and undoes nothing:
    the selected resources before the failing one stay patched, the
    failing one is as the applicator left it, and the resources after it
    are not touched. *)
Theorem Transform_fails_fast_without_rollback p m patch sel m' e :
  loadedPatch p = Some patch ->
  Target p = Some sel ->
  selectorError sel = None ->
  Transform p m = (m', Some e) ->
  exists a r b,
    m = a ++ r :: b
    /\ selectorMatches sel r = true
    /\ snd (applySMPatch p r (patchCopyFor patch r)) = Some e
    /\ (forall x, In x a -> selectorMatches sel x = true ->
          snd (applySMPatch p x (patchCopyFor patch x)) = None)
    /\ m' = map (fun x =>
                   if selectorMatches sel x
                   then fst (applySMPatch p x (patchCopyFor patch x))
                   else x) a
            ++ fst (applySMPatch p r (patchCopyFor patch r)) :: b.
Proof.
  intros Hl Ht Hs H. unfold Transform in H. rewrite Hl in H.
  rewrite (TransformFacts.transformStrategicMerge_selected p m patch sel Ht Hs)
    in H.
  apply (applyAll_failure _ _ _ _ _ H).
Qed.

(** A selector that matches no resource makes [Transform] succeed without
    applying anything, for a patch of either kind. *)
Theorem Transform_without_match_is_identity p m sel :
  Target p = Some sel ->
  selectorError sel = None ->
  (forall r, In r m -> selectorMatches sel r = false) ->
  Transform p m = (m, None).
Proof.
  intros Ht Hs Hn. unfold Transform.
  destruct (loadedPatch p) as [patch|].
  - unfold transformStrategicMerge, Select. rewrite Ht, Hs.
    rewrite (positions_none _ m 0 Hn). reflexivity.
  - unfold transformJson6902, Select. rewrite Ht, Hs.
    rewrite (positions_none _ m 0 Hn). reflexivity.
Qed.

(** Without a target selector a strategic-merge patch changes one resource
    at most: there is a position outside of which the collection is as it
    was, also when [Transform] fails. *)
Theorem Transform_by_identity_changes_one_resource p m patch :
  loadedPatch p = Some patch ->
  Target p = None ->
  exists i, forall j, j <> i ->
    nth_error (fst (Transform p m)) j = nth_error m j.
Proof.
  intros Hl Ht. unfold Transform, transformStrategicMerge. rewrite Hl, Ht.
  destruct (resmap.GetById (resource.OrgId patch) m) as [i|e].
  - exists i. intros j Hj. apply mutateAt_other. exact Hj.
  - exists 0. reflexivity.
Qed.

(** In the legacy branch of [applyJson6902Patch] the resource is written
    only by the final [UnmarshalJSON]: when [MarshalJSON] or [Apply] fails,
    the resource is returned as it was given, next to an error. *)
Theorem applyJson6902Patch_legacy_failure_keeps_resource p res patch :
  YAMLSupport p = false ->
  snd (resource_MarshalJSON res) <> None
  \/ snd (jsonpatch_Apply patch (fst (resource_MarshalJSON res))) <> None ->
  fst (applyJson6902Patch p res patch) = res
  /\ snd (applyJson6902Patch p res patch) <> None.
Proof.
  intros Hy H. unfold applyJson6902Patch. rewrite Hy. simpl.
  destruct (resource_MarshalJSON res) as [rawObj [e|]]; simpl in *.
  - split; [reflexivity|discriminate].
  - destruct H as [H|H]; [congruence|].
    destruct (jsonpatch_Apply patch rawObj) as [out [e|]]; simpl in *.
    + split; [reflexivity|discriminate].
    + congruence.
Qed.

End WithCollaborators.

(** An [add] sent to the two deployments of a collection. *)
Lemma Transform_json_patch_fans_out_witness :
  [sample.deployment "web" [("a", VNum 1); ("k", VNum 7)];
   sample.deployment "db" [("b", VNum 2); ("k", VNum 7)]]
  = map (fun r =>
           if selectorMatches (Collaborators := sample.collaborators)
                (sample.anyKind "Deployment") r
           then fst (applyJson6902Patch (C := sample.collaborators)
                       (mkPlugin None (Some [OpAdd ["k"] (VNum 7)]) "" "[...]"
                          (Some (sample.anyKind "Deployment")) false)
                       r (Some [OpAdd ["k"] (VNum 7)]))
           else r)
        [sample.web; sample.db]
  /\ (forall r, In r [sample.web; sample.db] ->
        selectorMatches (Collaborators := sample.collaborators)
          (sample.anyKind "Deployment") r = true ->
        snd (applyJson6902Patch (C := sample.collaborators)
               (mkPlugin None (Some [OpAdd ["k"] (VNum 7)]) "" "[...]"
                  (Some (sample.anyKind "Deployment")) false)
               r (Some [OpAdd ["k"] (VNum 7)])) = None).
Proof.
  refine (Transform_json_patch_fans_out (C := sample.collaborators)
            (mkPlugin None (Some [OpAdd ["k"] (VNum 7)]) "" "[...]"
               (Some (sample.anyKind "Deployment")) false)
            [sample.web; sample.db] (sample.anyKind "Deployment") _ _ _ _).
  - reflexivity.
  - reflexivity.
  - reflexivity.
Defined.

(** A patch sent to three deployments, with an applicator that fails on
    the second. *)
Lemma Transform_fails_fast_without_rollback_witness :
  exists a r b,
    [sample.web; sample.db; doubles.cache] = a ++ r :: b
    /\ selectorMatches (Collaborators := doubles.failOnDb)
         (sample.anyKind "Deployment") r = true
    /\ snd (applySMPatch (C := doubles.failOnDb)
              (mkPlugin (Some sample.extendDb) None "" "{c: 3}"
                 (Some (sample.anyKind "Deployment")) false)
              r (patchCopyFor sample.extendDb r))
       = Some (ErrFrom ApplyError "cannot patch db")
    /\ (forall x, In x a ->
          selectorMatches (Collaborators := doubles.failOnDb)
            (sample.anyKind "Deployment") x = true ->
          snd (applySMPatch (C := doubles.failOnDb)
                 (mkPlugin (Some sample.extendDb) None "" "{c: 3}"
                    (Some (sample.anyKind "Deployment")) false)
                 x (patchCopyFor sample.extendDb x)) = None)
    /\ [sample.deployment "web" [("a", VNum 1); ("c", VNum 3)];
        sample.db; doubles.cache]
       = map (fun x =>
                if selectorMatches (Collaborators := doubles.failOnDb)
                     (sample.anyKind "Deployment") x
                then fst (applySMPatch (C := doubles.failOnDb)
                            (mkPlugin (Some sample.extendDb) None "" "{c: 3}"
                               (Some (sample.anyKind "Deployment")) false)
                            x (patchCopyFor sample.extendDb x))
                else x) a
         ++ fst (applySMPatch (C := doubles.failOnDb)
                   (mkPlugin (Some sample.extendDb) None "" "{c: 3}"
                      (Some (sample.anyKind "Deployment")) false)
                   r (patchCopyFor sample.extendDb r)) :: b.
Proof.
  refine (Transform_fails_fast_without_rollback (C := doubles.failOnDb)
            (mkPlugin (Some sample.extendDb) None "" "{c: 3}"
               (Some (sample.anyKind "Deployment")) false)
            [sample.web; sample.db; doubles.cache] sample.extendDb
            (sample.anyKind "Deployment") _ _ _ _ _ _).
  - reflexivity.
  - reflexivity.
  - reflexivity.
  - reflexivity.
Defined.

(** A selector for services, on a collection of deployments. *)
Lemma Transform_without_match_is_identity_witness :
  Transform (C := sample.collaborators)
    (mkPlugin (Some sample.extendDb) None "" "{c: 3}"
       (Some (sample.anyKind "Service")) true)
    [sample.web; sample.db]
  = ([sample.web; sample.db], None).
Proof.
  refine (Transform_without_match_is_identity (C := sample.collaborators)
            (mkPlugin (Some sample.extendDb) None "" "{c: 3}"
               (Some (sample.anyKind "Service")) true)
            [sample.web; sample.db] (sample.anyKind "Service") _ _ _).
  - reflexivity.
  - reflexivity.
  - intros r [<-|[<-|[]]]; reflexivity.
Defined.

(** A patch for [db], found by its identity. *)
Lemma Transform_by_identity_changes_one_resource_witness :
  exists i, forall j, j <> i ->
    nth_error
      (fst (Transform (C := sample.collaborators)
              (mkPlugin (Some sample.extendDb) None "" "{c: 3}" None true)
              [sample.web; sample.db])) j
    = nth_error [sample.web; sample.db] j.
Proof.
  refine (Transform_by_identity_changes_one_resource (C := sample.collaborators)
            (mkPlugin (Some sample.extendDb) None "" "{c: 3}" None true)
            [sample.web; sample.db] sample.extendDb _ _).
  - reflexivity.
  - reflexivity.
Defined.

(** Removing a path that the deployment does not have. *)
Lemma applyJson6902Patch_legacy_failure_keeps_resource_witness :
  fst (applyJson6902Patch (C := sample.collaborators)
         (mkPlugin None (Some [OpRemove ["spec"; "replicas"]]) "" "[...]" None false)
         sample.web (Some [OpRemove ["spec"; "replicas"]]))
  = sample.web
  /\ snd (applyJson6902Patch (C := sample.collaborators)
            (mkPlugin None (Some [OpRemove ["spec"; "replicas"]]) "" "[...]" None false)
            sample.web (Some [OpRemove ["spec"; "replicas"]]))
     <> None.
Proof.
  refine (applyJson6902Patch_legacy_failure_keeps_resource
            (C := sample.collaborators)
            (mkPlugin None (Some [OpRemove ["spec"; "replicas"]]) "" "[...]" None false)
            sample.web (Some [OpRemove ["spec"; "replicas"]]) _ _).
  - reflexivity.
  - right. simpl. discriminate.
Defined.

End TransformMore.

(** ** More on the multi-patch plugin *)

Module StrategicMergeMore.
Import PatchStrategicMergeTransformer.

Lemma forEach_app {A : Type} (body : A -> ResMap -> ResMap * option Error) :
  forall l1 l2 m m1,
  forEach body l1 m = (m1, None) ->
  forEach body (l1 ++ l2) m = forEach body l2 m1.
Proof.
  induction l1 as [|x l1 IH]; intros l2 m m1 H; simpl in *.
  - inversion H. reflexivity.
  - destruct (body x m) as [m' [e|]]; [discriminate|]. apply IH. exact H.
Qed.

Lemma forEach_le {A : Type} (body : A -> ResMap -> ResMap * option Error) :
  (forall x m, List.length (fst (body x m)) <= List.length m) ->
  forall l m, List.length (fst (forEach body l m)) <= List.length m.
Proof.
  intros Hb l. induction l as [|x l IH]; intros m; [apply le_n|].
  simpl. pose proof (Hb x m) as Hx.
  destruct (body x m) as [m' [e|]]; simpl in *; [exact Hx|].
  specialize (IH m'). lia.
Qed.

Lemma forEach_ext {A : Type} (f g : A -> ResMap -> ResMap * option Error) :
  (forall x m, f x m = g x m) ->
  forall l m, forEach f l m = forEach g l m.
Proof.
  intros H l. induction l as [|x l IH]; intros m; [reflexivity|].
  simpl. rewrite H. destruct (g x m) as [m' [e|]]; [reflexivity|apply IH].
Qed.

Section WithCollaborators.
Context {C : Collaborators} {Y : Yaml}.

(** The plugin as [Config] has it after decoding. *)
Lemma Config_after_decoding hp c p0 p1 :
  yaml_Unmarshal c (setH (Some hp) p0) = (p1, None) ->
  exists q,
    Paths q = Paths p1 /\ Patches q = Patches p1
    /\ loadedPatches q = loadedPatches p1
    /\ Config hp c p0
       = if Nat.eqb (List.length (Paths q)) 0 && String.eqb (Patches q) ""
         then (q, Some ErrEmptyPathAndPatch)
         else
           match loadPaths hp (Paths q) q with
           | (q1, Some err) => (q1, Some err)
           | (q1, None) =>
               match (if negb (String.eqb (Patches q1) "") then
                        match RF_SliceFromBytes hp (Patches q1) with
                        | (_, Some err) => (q1, Some err)
                        | (res, None) =>
                            (setLoadedPatches (loadedPatches q1 ++ res) q1, None)
                        end
                      else (q1, None)) with
               | (q2, Some err) => (q2, Some err)
               | (q2, None) =>
                   if Nat.eqb (List.length (loadedPatches q2)) 0
                   then (q2, Some (ErrPatchAppearsEmpty (Patches q2)))
                   else (q2, None)
               end
           end.
Proof.
  intros Hu.
  exists (if negb (strings.Contains c "yamlSupport")
          then setYAMLSupport true p1 else p1).
  unfold Config. rewrite Hu.
  destruct (negb (strings.Contains c "yamlSupport")); repeat split.
Qed.

(** What a successful run of the loop over [paths] leaves. *)
Lemma loadPaths_success hp : forall paths p p',
  loadPaths hp paths p = (p', None) ->
  loadedPatches p'
  = loadedPatches p ++ flat_map (fun x => fst (loadOnePath hp x)) paths
  /\ Patches p' = Patches p.
Proof.
  induction paths as [|x paths IH]; intros p p' H; simpl in H.
  - inversion H. rewrite app_nil_r. split; reflexivity.
  - unfold loadOnePath. simpl.
    destruct (RF_SliceFromBytes hp x) as [res [e|]].
    + destruct (RF_SliceFromPatches hp [x]) as [res' [e'|]]; [discriminate|].
      destruct (IH _ _ H) as [E1 E2]. simpl in E1, E2.
      rewrite E1, E2, <- app_assoc. split; reflexivity.
    + destruct (IH _ _ H) as [E1 E2]. simpl in E1, E2.
      rewrite E1, E2, <- app_assoc. split; reflexivity.
Qed.

(** The loop stops at the first entry that can be read neither way, with
    the error of the file reference. *)
Lemma loadPaths_failure hp bad post res1 e1 res2 e2 : forall pre p,
  (forall x, In x pre -> snd (loadOnePath hp x) = None) ->
  RF_SliceFromBytes hp bad = (res1, Some e1) ->
  RF_SliceFromPatches hp [bad] = (res2, Some e2) ->
  snd (loadPaths hp (pre ++ bad :: post) p) = Some e2.
Proof.
  induction pre as [|x pre IH]; intros p Hpre Hb1 Hb2; simpl.
  - rewrite Hb1, Hb2. reflexivity.
  - pose proof (Hpre x (or_introl eq_refl)) as Hx. unfold loadOnePath in Hx.
    destruct (RF_SliceFromBytes hp x) as [res [e|]].
    + destruct (RF_SliceFromPatches hp [x]) as [res' [e'|]];
        [discriminate|].
      apply IH; auto. intros y Hy. apply Hpre. right. exact Hy.
    + apply IH; auto. intros y Hy. apply Hpre. right. exact Hy.
Qed.

(** A successful [Config] appends to the patches the plugin held: first
    what each entry of [paths] yields, in order, each read as patch content
    or else as a file reference, then what the inline [patches] yield. *)
Theorem Config_loads_paths_then_inline hp c p0 p1 :
  yaml_Unmarshal c (setH (Some hp) p0) = (p1, None) ->
  snd (Config hp c p0) = None ->
  loadedPatches (fst (Config hp c p0))
  = loadedPatches p1
    ++ flat_map (fun x => fst (loadOnePath hp x)) (Paths p1)
    ++ (if String.eqb (Patches p1) "" then []
        else fst (RF_SliceFromBytes hp (Patches p1))).
Proof.
  intros Hu.
  destruct (Config_after_decoding hp c p0 p1 Hu) as (q & Hq1 & Hq2 & Hq3 & ->).
  destruct (_ && _); [discriminate|].
  destruct (loadPaths hp (Paths q) q) as [q1 [e|]] eqn:Hl; [discriminate|].
  destruct (loadPaths_success hp _ _ _ Hl) as [E1 E2].
  rewrite Hq1, Hq3 in E1. rewrite Hq2 in E2. rewrite E2.
  destruct (String.eqb (Patches p1) ""); simpl.
  - destruct (Nat.eqb _ 0); [discriminate|]. intros _. simpl.
    rewrite E1, app_nil_r. reflexivity.
  - destruct (RF_SliceFromBytes hp (Patches p1)) as [res [e|]];
      [discriminate|].
    destruct (Nat.eqb _ 0); [discriminate|]. intros _. simpl.
    rewrite E1, <- app_assoc. reflexivity.
Qed.

(** A successful [Config] leaves the plugin at least one patch. *)
Theorem Config_success_has_patches hp c p0 :
  snd (Config hp c p0) = None ->
  loadedPatches (fst (Config hp c p0)) <> [].
Proof.
  destruct (yaml_Unmarshal c (setH (Some hp) p0)) as [p1 [e|]] eqn:Hu.
  { unfold Config. rewrite Hu. discriminate. }
  destruct (Config_after_decoding hp c p0 p1 Hu) as (q & _ & _ & _ & ->).
  destruct (_ && _); [discriminate|].
  destruct (loadPaths hp (Paths q) q) as [q1 [e|]]; [discriminate|].
  destruct (negb (String.eqb (Patches q1) "")).
  - destruct (RF_SliceFromBytes hp (Patches q1)) as [res [e|]];
      [discriminate|].
    destruct (Nat.eqb _ 0) eqn:Hn; [discriminate|]. intros _. simpl.
    apply Nat.eqb_neq in Hn. intros E0. rewrite E0 in Hn. apply Hn. reflexivity.
  - destruct (Nat.eqb _ 0) eqn:Hn; [discriminate|]. intros _. simpl.
    apply Nat.eqb_neq in Hn. intros E0. rewrite E0 in Hn. apply Hn. reflexivity.
Qed.

(** An entry of [paths] that is neither patch content nor a readable file
    reference makes [Config] fail with the error of the file reference,
    not with the parse error, once the entries before it have loaded. *)
Theorem Config_bad_path_reports_reference_error
    hp c p0 p1 pre bad post res1 e1 res2 e2 :
  yaml_Unmarshal c (setH (Some hp) p0) = (p1, None) ->
  Paths p1 = pre ++ bad :: post ->
  (forall x, In x pre -> snd (loadOnePath hp x) = None) ->
  RF_SliceFromBytes hp bad = (res1, Some e1) ->
  RF_SliceFromPatches hp [bad] = (res2, Some e2) ->
  snd (Config hp c p0) = Some e2.
Proof.
  intros Hu Hp Hpre Hb1 Hb2.
  destruct (Config_after_decoding hp c p0 p1 Hu) as (q & Hq1 & Hq2 & Hq3 & ->).
  rewrite Hq1, Hp.
  replace (Nat.eqb (List.length (pre ++ bad :: post)) 0) with false
    by (rewrite length_app; simpl; rewrite Nat.add_succ_r; reflexivity).
  simpl.
  pose proof (loadPaths_failure hp bad post res1 e1 res2 e2 pre q Hpre Hb1 Hb2)
    as H.
  destruct (loadPaths hp (pre ++ bad :: post) q) as [q1 [e|]]; simpl in H;
    [exact H|discriminate].
Qed.

(** With neither an entry in [paths] nor inline [patches], [Config] fails
    before it loads anything. *)
Theorem Config_without_content_fails hp c p0 p1 :
  yaml_Unmarshal c (setH (Some hp) p0) = (p1, None) ->
  Paths p1 = [] -> Patches p1 = "" ->
  snd (Config hp c p0) = Some ErrEmptyPathAndPatch
  /\ loadedPatches (fst (Config hp c p0)) = loadedPatches p1.
Proof.
  intros Hu Hp Hq.
  destruct (Config_after_decoding hp c p0 p1 Hu) as (q & Hq1 & Hq2 & Hq3 & ->).
  rewrite Hq1, Hq2, Hp, Hq. simpl. split; [reflexivity|exact Hq3].
Qed.

Lemma transformOne_le p patch m :
  List.length (fst (transformOne p patch m)) <= List.length m.
Proof.
  unfold transformOne.
  destruct (resmap.GetById _ m) as [i|e]; [|apply le_n].
  destruct (nth_error m i) as [target|]; [|apply le_n].
  destruct (applyPatch p target patch) as [[target' [e|]]|e]; simpl;
    try (rewrite replaceAt_length; apply le_n); try apply le_n.
  destruct (Nat.eqb _ 0); simpl; [|rewrite replaceAt_length; apply le_n].
  unfold resmap.Remove.
  destruct (Nat.eqb _ _) eqn:Hn; simpl.
  - apply Nat.eqb_eq in Hn. rewrite replaceAt_length in Hn. lia.
  - rewrite replaceAt_length. apply le_n.
Qed.

(** [Transform] never adds a resource. *)
Theorem Transform_never_grows p m :
  List.length (fst (Transform p m)) <= List.length m.
Proof.
  unfold Transform. destruct (h p) as [hp|]; [|apply le_n].
  destruct (ResmapFactory_MergePatches hp (loadedPatches p)) as [patches [e|]];
    [apply le_n|].
  apply forEach_le. intros x m0. apply transformOne_le.
Qed.

(** [Transform] goes through the merged patches in order and stops at the
    first one that fails: what the patches before it did is kept, and the
    patches after it are not applied. *)
Theorem Transform_stops_at_first_failure p hp m pre patch post m1 m2 e :
  h p = Some hp ->
  ResmapFactory_MergePatches hp (loadedPatches p)
  = (pre ++ patch :: post, None) ->
  forEach (transformOne p) pre m = (m1, None) ->
  transformOne p patch m1 = (m2, Some e) ->
  Transform p m = (m2, Some e).
Proof.
  intros Hh Hm Hpre Hone. unfold Transform. rewrite Hh, Hm.
  rewrite (forEach_app _ pre (patch :: post) m m1 Hpre).
  simpl. rewrite Hone. reflexivity.
Qed.

(** With one merged patch that empties its target, a successful
    [Transform] returns the collection without the target's position and
    otherwise as it was. *)
Theorem Transform_removes_emptied_target p hp m patch i target target' m' :
  h p = Some hp ->
  ResmapFactory_MergePatches hp (loadedPatches p) = ([patch], None) ->
  resmap.GetById (resource.OrgId patch) m = Ok i ->
  nth_error m i = Some target ->
  applyPatch p target patch = inl (target', None) ->
  resource.Map target' = [] ->
  Transform p m = (m', None) ->
  m' = firstn i m ++ skipn (S i) m
  /\ S (List.length m') = List.length m.
Proof.
  intros Hh Hm Hg Hn Ha He H. unfold Transform in H. rewrite Hh, Hm in H.
  simpl in H.
  destruct (transformOne p patch m) as [m0 [e|]] eqn:Hone; [discriminate|].
  inversion H; subst m0.
  destruct (StrategicMergeFacts.transformOne_removes_emptied
              p patch m i target target' m' Hg Hn Ha He Hone) as (E1 & E2 & _).
  split; assumption.
Qed.

End WithCollaborators.

Section ApplyErrors.
Context {C : Collaborators}.

Lemma applyPatch_withoutApplyErrors p target patch :
  YAMLSupport p = true ->
  applyPatch (C := withoutApplyErrors C) p target patch
  = applyPatch (C := C) p target patch.
Proof.
  intros Hy. unfold applyPatch. rewrite Hy. simpl.
  destruct (filtersutil_GetRNode (patchCopyFor patch target)) as [node [e|]];
    [reflexivity|].
  destruct (filtersutil_ApplyToJSON (PatchStrategicMergeFilter node) target).
  reflexivity.
Qed.

(** Under the kyaml strategy [Transform] does not depend on the errors of
    [filtersutil.ApplyToJSON]: with every such error replaced by nil it
    returns the same collection and the same error. *)
Theorem Transform_kyaml_ignores_apply_errors p m :
  YAMLSupport p = true ->
  Transform (C := withoutApplyErrors C) p m = Transform (C := C) p m.
Proof.
  intros Hy. unfold Transform. destruct (h p) as [hp|]; [|reflexivity].
  destruct (ResmapFactory_MergePatches hp (loadedPatches p)) as [patches [e|]];
    [reflexivity|].
  apply forEach_ext. intros patch m0. unfold transformOne.
  destruct (resmap.GetById _ m0) as [i|e]; [|reflexivity].
  destruct (nth_error m0 i) as [target|]; [|reflexivity].
  rewrite (applyPatch_withoutApplyErrors p target patch Hy). reflexivity.
Qed.

End ApplyErrors.

(** Two entries of [paths], the second a file reference, and an inline
    patch. *)
Lemma Config_loads_paths_then_inline_witness :
  loadedPatches
    (fst (Config (Y := doubles.yamlSMOf ["{a: 1}"; "db.yaml"] "{b: 2}")
            doubles.helpers "paths: [...]" KustomizePlugin))
  = [] ++ flat_map (fun x => fst (loadOnePath doubles.helpers x))
            ["{a: 1}"; "db.yaml"]
       ++ (if String.eqb "{b: 2}" "" then []
           else fst (RF_SliceFromBytes doubles.helpers "{b: 2}")).
Proof.
  refine (Config_loads_paths_then_inline
            (Y := doubles.yamlSMOf ["{a: 1}"; "db.yaml"] "{b: 2}")
            doubles.helpers "paths: [...]" KustomizePlugin
            (mkPlugin (Some doubles.helpers) [] ["{a: 1}"; "db.yaml"] "{b: 2}" false)
            _ _).
  - reflexivity.
  - reflexivity.
Defined.

Lemma Config_success_has_patches_witness :
  loadedPatches
    (fst (Config (Y := doubles.yamlSMOf ["{a: 1}"] "")
            doubles.helpers "paths: [...]" KustomizePlugin))
  <> [].
Proof.
  refine (Config_success_has_patches
            (Y := doubles.yamlSMOf ["{a: 1}"] "")
            doubles.helpers "paths: [...]" KustomizePlugin _).
  reflexivity.
Defined.

(** The second entry is not patch content and names no file. *)
Lemma Config_bad_path_reports_reference_error_witness :
  snd (Config (Y := doubles.yamlSMOf ["{a: 1}"; "missing.yaml"; "{c: 3}"] "")
         doubles.helpers "paths: [...]" KustomizePlugin)
  = Some doubles.notFound.
Proof.
  refine (Config_bad_path_reports_reference_error
            (Y := doubles.yamlSMOf ["{a: 1}"; "missing.yaml"; "{c: 3}"] "")
            doubles.helpers "paths: [...]" KustomizePlugin
            (mkPlugin (Some doubles.helpers) []
               ["{a: 1}"; "missing.yaml"; "{c: 3}"] "" false)
            ["{a: 1}"] "missing.yaml" ["{c: 3}"]
            [] (sample.parseError "not a resource") [] doubles.notFound
            _ _ _ _ _).
  - reflexivity.
  - reflexivity.
  - intros x [<-|[]]. reflexivity.
  - reflexivity.
  - reflexivity.
Defined.

Lemma Config_without_content_fails_witness :
  snd (Config (Y := doubles.yamlSMOf [] "")
         doubles.helpers "{}" KustomizePlugin)
  = Some ErrEmptyPathAndPatch
  /\ loadedPatches
       (fst (Config (Y := doubles.yamlSMOf [] "")
               doubles.helpers "{}" KustomizePlugin))
     = [].
Proof.
  refine (Config_without_content_fails
            (Y := doubles.yamlSMOf [] "")
            doubles.helpers "{}" KustomizePlugin
            (mkPlugin (Some doubles.helpers) [] [] "" false) _ _ _).
  - reflexivity.
  - reflexivity.
  - reflexivity.
Defined.

(** Three patches, the legacy applicator failing on the second. *)
Lemma Transform_stops_at_first_failure_witness :
  Transform (C := doubles.failOnDb)
    (mkPlugin (Some doubles.helpers)
       [sample.setG; sample.extendDb;
        sample.deployment "cache" [("y", VNum 1)]] [] "" false)
    [sample.web; sample.db; doubles.cache]
  = ([sample.deployment "web" [("a", VNum 1); ("g", VNum 1)];
      sample.db; doubles.cache],
     Some (ErrFrom ApplyError "cannot patch db")).
Proof.
  refine (Transform_stops_at_first_failure (C := doubles.failOnDb)
            (mkPlugin (Some doubles.helpers)
               [sample.setG; sample.extendDb;
                sample.deployment "cache" [("y", VNum 1)]] [] "" false)
            doubles.helpers
            [sample.web; sample.db; doubles.cache]
            [sample.setG] sample.extendDb
            [sample.deployment "cache" [("y", VNum 1)]]
            [sample.deployment "web" [("a", VNum 1); ("g", VNum 1)];
             sample.db; doubles.cache]
            _ _ _ _ _ _).
  - reflexivity.
  - reflexivity.
  - reflexivity.
  - reflexivity.
Defined.

(** The patch that deletes the one field of [web]. *)
Lemma Transform_removes_emptied_target_witness :
  [sample.db] = firstn 0 [sample.web; sample.db]
                ++ skipn 1 [sample.web; sample.db]
  /\ S (List.length [sample.db]) = List.length [sample.web; sample.db].
Proof.
  refine (Transform_removes_emptied_target (C := sample.collaborators)
            (mkPlugin (Some doubles.helpers) [sample.emptyWeb] [] "" true)
            doubles.helpers [sample.web; sample.db] sample.emptyWeb
            0 sample.web (sample.deployment "web" []) [sample.db]
            _ _ _ _ _ _ _).
  - reflexivity.
  - reflexivity.
  - reflexivity.
  - reflexivity.
  - reflexivity.
  - reflexivity.
  - reflexivity.
Defined.

(** With the collaborators that fail on [db]: the pass is the one of
    collaborators that never fail in [ApplyToJSON]. *)
Lemma Transform_kyaml_ignores_apply_errors_witness :
  Transform (C := withoutApplyErrors doubles.failOnDb)
    (mkPlugin (Some doubles.helpers) [sample.setG; sample.extendDb] [] "" true)
    [sample.web; sample.db]
  = Transform (C := doubles.failOnDb)
      (mkPlugin (Some doubles.helpers) [sample.setG; sample.extendDb] [] "" true)
      [sample.web; sample.db].
Proof.
  refine (Transform_kyaml_ignores_apply_errors (C := doubles.failOnDb)
            (mkPlugin (Some doubles.helpers) [sample.setG; sample.extendDb] [] "" true)
            [sample.web; sample.db] _).
  reflexivity.
Defined.

End StrategicMergeMore.
